(** * zenodo_uploader: a shallow embedding of [src/zenodo_uploader.py]

    The script finds or creates a deposition on a Zenodo-style service,
    uploads files into it, attaches metadata and optionally publishes it.
    Everything it does is a sequence of HTTP calls and a few file reads, so
    the embedding is a small state-and-exception monad over a log of
    effects; the remote service and the file system are an oracle
    ([World]) that the functions are parameterised by. *)

From Stdlib Require Import List String Ascii ZArith Bool Lia Permutation Sorted.
From Stdlib Require Import OrderedTypeEx.
Import ListNotations.
Open Scope string_scope.
Open Scope list_scope.
Open Scope Z_scope.

(** ** Python string operations used by the script

    A Python [str] is modelled as a Rocq [string]: a sequence of characters
    with code points below 256, compared by code point. *)
Module PyStr.

(** [str.isspace] on one character, for code points below 256. *)
Definition isspace (c : ascii) : bool :=
  let n := N_of_ascii c in
  ((9 <=? n) && (n <=? 13) || (28 <=? n) && (n <=? 32)
   || (n =? 133) || (n =? 160))%N.

Fixpoint lstrip (s : string) : string :=
  match s with
  | EmptyString => EmptyString
  | String c s' => if isspace c then lstrip s' else s
  end.

Fixpoint rstrip (s : string) : string :=
  match s with
  | EmptyString => EmptyString
  | String c s' =>
      match rstrip s' with
      | EmptyString => if isspace c then EmptyString else String c EmptyString
      | r => String c r
      end
  end.

(** [s.strip()] *)
Definition strip (s : string) : string := rstrip (lstrip s).

(** [s.split(sep)] for a one-character separator; never the empty list. *)
Fixpoint split (sep : ascii) (s : string) : list string :=
  match s with
  | EmptyString => [EmptyString]
  | String c s' =>
      if Ascii.eqb c sep then EmptyString :: split sep s'
      else match split sep s' with
           | [] => [String c EmptyString]
           | w :: ws => String c w :: ws
           end
  end.

(** [l[-1]] on the result of a split. *)
Definition last_item (l : list string) : string := last l EmptyString.

(** [s.endswith(suffix)]: [suffix] is one of the tails of [s]. *)
Fixpoint endswith (s suffix : string) : bool :=
  String.eqb s suffix
  || match s with
     | EmptyString => false
     | String _ s' => endswith s' suffix
     end.

(** [s.replace(old, new)]: non-overlapping occurrences of [old], scanned
    from the left.  [skip] counts characters of a matched occurrence that
    are still to be dropped. *)
Fixpoint replace_from (old new s : string) (skip : nat) : string :=
  match s with
  | EmptyString => EmptyString
  | String c s' =>
      match skip with
      | S k => replace_from old new s' k
      | O =>
          if String.prefix old s
          then (new ++ replace_from old new s' (Nat.pred (String.length old)))%string
          else String c (replace_from old new s' O)
      end
  end.

Fixpoint interleave (new s : string) : string :=
  match s with
  | EmptyString => EmptyString
  | String c s' => String c (new ++ interleave new s')%string
  end.

Definition replace (old new s : string) : string :=
  match old with
  | EmptyString => (new ++ interleave new s)%string
  | _ => replace_from old new s O
  end.

(** Characterwise image of a string. *)
Fixpoint map_chars (f : ascii -> ascii) (s : string) : string :=
  match s with
  | EmptyString => EmptyString
  | String c s' => String (f c) (map_chars f s')
  end.

Fixpoint contains_char (c : ascii) (s : string) : bool :=
  match s with
  | EmptyString => false
  | String c' s' => Ascii.eqb c' c || contains_char c s'
  end.

(** [posixpath.basename]: what follows the last slash. *)
Definition basename (p : string) : string := last_item (split "/" p).

(** [p[:p.rfind('/') + 1]]: up to and including the last slash. *)
Fixpoint head_part (p : string) : string :=
  match p with
  | EmptyString => EmptyString
  | String c p' =>
      match head_part p' with
      | EmptyString => if Ascii.eqb c "/" then "/" else EmptyString
      | h => String c h
      end
  end.

Fixpoint all_slashes (s : string) : bool :=
  match s with
  | EmptyString => true
  | String c s' => Ascii.eqb c "/" && all_slashes s'
  end.

Fixpoint rstrip_slash (s : string) : string :=
  match s with
  | EmptyString => EmptyString
  | String c s' =>
      match rstrip_slash s' with
      | EmptyString => if Ascii.eqb c "/" then EmptyString else String c EmptyString
      | r => String c r
      end
  end.

(** [posixpath.dirname] *)
Definition dirname (p : string) : string :=
  let head := head_part p in
  if all_slashes head then head else rstrip_slash head.

(** Python's order on [str]: lexicographic by code point. *)
Definition lt (a b : string) : bool := String.ltb a b.
Definition le (a b : string) : bool := String.leb a b.

End PyStr.

(** ** Data model *)

(** A JSON scalar as Python sees it; the [owner] of a deposition is compared
    with the owner given to the search by Python's [==]. *)
Inductive pyval :=
| PyNone
| PyInt (z : Z)
| PyStr (s : string).

Definition py_eq (a b : pyval) : bool :=
  match a, b with
  | PyNone, PyNone => true
  | PyInt x, PyInt y => Z.eqb x y
  | PyStr x, PyStr y => String.eqb x y
  | _, _ => false
  end.

Definition of_optional (o : option string) : pyval :=
  match o with
  | None => PyNone
  | Some s => PyStr s
  end.

(** [if owner:] on an optional string. *)
Definition truthy (o : option string) : bool :=
  match o with
  | None | Some EmptyString => false
  | Some _ => true
  end.

(** One entry of [deposition["files"]]. *)
Record file_entry := {
  file_key : string;              (* file["key"], the name *)
  file_checksum : string          (* file["checksum"] *)
}.

(** A deposition object of the remote service, with the fields the script
    reads. *)
Record deposition := {
  dep_id : Z;                     (* deposition["id"] *)
  dep_title : string;             (* deposition["metadata"]["title"] *)
  dep_publication_date : string;  (* deposition["metadata"]["publication_date"] *)
  dep_owner : pyval;              (* deposition["owner"] *)
  dep_bucket : string;            (* deposition["links"]["bucket"] *)
  dep_html : string;              (* deposition["links"]["html"] *)
  dep_latest_draft : string;      (* deposition["links"]["latest_draft"] *)
  dep_files : list file_entry     (* deposition["files"] *)
}.

(** The triple [(deposition_id, bucket_url, file_url)] threaded through the
    run. *)
Definition handle : Type := Z * string * string.

Record meta_data := {
  metadata_title : string;        (* meta_data["metadata"]["title"] *)
  metadata_rest : string          (* the other fields, passed through *)
}.

Record config := {
  zenodo_metadata : meta_data;    (* content["zenodo_metadata"] *)
  env_name : string               (* content["env_name"] *)
}.

(** Command line and environment of one run. *)
Record args := {
  files_to_upload : list string;  (* -f/--file, repeatable *)
  config_file : string;           (* -c/--config-file *)
  publish : bool;                 (* -p/--publish *)
  ZENODO_ACCESS_TOKEN : option string;
  ZENODO_OWNER_ID : option string
}.

(** ** Effects *)

(** The HTTP requests of the script.  Every one carries the access token as
    a query parameter; [GET_search] carries the [q] parameter before URL
    encoding. *)
Inductive request :=
| GET_search (q : string)                   (* GET deposit/depositions?q=..&sort=mostrecent *)
| POST_newversion (deposition_id : Z)       (* POST deposit/depositions/{id}/actions/newversion *)
| GET_draft (new_deposition_id : string)    (* GET deposit/depositions/{new_deposition_id} *)
| POST_depositions                          (* POST deposit/depositions *)
| GET_deposition (deposition_id : Z)        (* GET deposit/depositions/{id} *)
| PUT_file (bucket_url filebase data : string)   (* PUT {bucket_url}/{filebase} *)
| PUT_metadata (deposition_id : Z) (m : meta_data)  (* PUT deposit/depositions/{id} *)
| POST_publish (deposition_id : Z).         (* POST deposit/depositions/{id}/actions/publish *)

(** The functions of the script, as they are entered. *)
Inductive call :=
| search_for_deposition_call (title : string) (owner : option string)
| create_new_version_call (deposition_id : Z)
| create_new_deposition_call
| upload_to_zenodo_call (deposition_id : Z)
    (filename bucket_url file_url filebase env : string)
| add_meta_data_call (deposition_id : Z) (m : meta_data)
| publish_file_call (deposition_id : Z).

Inductive event :=
| Call (c : call)
| Created (h : handle)     (* the triple a create_new_* function returns *)
| Open (path : string)     (* open(path) *)
| Http (r : request).

Definition trace := list event.

(** A JSON document of the service: a list of depositions (the search
    results) or one deposition object. *)
Inductive json :=
| Json_list (l : list deposition)
| Json_object (d : deposition).

(** What a request comes back with.  A body of [None] is one that
    [r.json()] cannot decode. *)
Inductive response :=
| Transport_error                  (* requests raises ConnectionError *)
| Http_response (status_code : Z) (body : option json).

(** The remote service and the local machine.  A response may depend on
    everything that happened before it. *)
Record World := {
  respond : trace -> request -> response;
  read_file : string -> option string;    (* open(path).read(); None: OSError *)
  os_path_isfile : string -> bool;
  os_path_abspath : string -> string;
  load_config : string -> option config   (* yaml.safe_load and the two keys; None: any exception *)
}.

Inductive exn :=
| SystemExit (message : string)
| FileNotFoundError (path : string)
| OSError (path : string)
| ConnectionError
| HTTPError (status_code : Z)
| JSONDecodeError
| RuntimeError (status_code : Z)
| TypeError
| IndexError.

Inductive result (A : Type) :=
| Return (a : A)
| Raise (e : exn).
Arguments Return {A} a.
Arguments Raise {A} e.

(** A computation extends the log of effects and returns or raises. *)
Definition M (A : Type) : Type := trace -> trace * result A.

Definition ret {A} (a : A) : M A := fun t => (t, Return a).
Definition raise {A} (e : exn) : M A := fun t => (t, Raise e).
Definition bind {A B} (m : M A) (k : A -> M B) : M B :=
  fun t =>
    match m t with
    | (t', Return a) => k a t'
    | (t', Raise e) => (t', Raise e)
    end.
Definition emit (e : event) : M unit := fun t => (t ++ [e], Return tt).

(** [try: m except Exception: h].  [SystemExit] is not an [Exception]. *)
Definition try_except {A} (m : M A) (h : M A) : M A :=
  fun t =>
    match m t with
    | (t', Raise (SystemExit msg)) => (t', Raise (SystemExit msg))
    | (t', Raise _) => h t'
    | r => r
    end.

Declare Scope monad_scope.
Delimit Scope monad_scope with monad.
Notation "x <- m ;; k" := (bind m (fun x => k))
  (at level 61, m at next level, right associativity) : monad_scope.
Notation "' p <- m ;; k" := (bind m (fun p => k))
  (at level 61, p pattern, m at next level, right associativity) : monad_scope.
Notation "m ;; k" := (bind m (fun _ => k))
  (at level 61, right associativity) : monad_scope.
Open Scope monad_scope.

(** [for x in l: body(x)] *)
Fixpoint for_each {A} (l : list A) (body : A -> M unit) : M unit :=
  match l with
  | [] => ret tt
  | x :: l' => body x ;; for_each l' body
  end.

(** [for x in l: s = body(s, x)], for a loop that reassigns its variables. *)
Fixpoint for_each_with {S A} (l : list A) (s : S) (body : S -> A -> M S) : M S :=
  match l with
  | [] => ret s
  | x :: l' => s' <- body s x ;; for_each_with l' s' body
  end.

(** [Response.raise_for_status] of the requests library: an [HTTPError] for
    a status code from 400 to 599, nothing otherwise. *)
Definition is_http_error (status_code : Z) : bool :=
  (400 <=? status_code) && (status_code <? 600).

Definition raise_for_status (status_code : Z) : M unit :=
  if is_http_error status_code then raise (HTTPError status_code) else ret tt.

(** ** The script *)

Definition dquote : string := String (ascii_of_N 34) EmptyString.

Definition handle_of (d : deposition) : handle :=
  (dep_id d, dep_bucket d, PyStr.replace "deposit" "record" (dep_html d)).

(** [f"{owner}"] *)
Definition format_owner (owner : option string) : string :=
  match owner with
  | Some o => o
  | None => "None"
  end.

(** Lines 21-23: the search string before its slashes are replaced. *)
Definition search_string (title : string) (owner : option string) : string :=
  let search := ("metadata.title:" ++ dquote ++ title ++ dquote)%string in
  if truthy owner then (search ++ " owners:" ++ format_owner owner)%string
  else search.

(** Line 26. *)
Definition search_query (title : string) (owner : option string) : string :=
  PyStr.replace "/" " " (search_string title owner).

(** Lines 61-64: the test of the filtering loop. *)
Definition matches (title : string) (owner : option string) (d : deposition) : bool :=
  String.eqb (dep_title d) title || py_eq (dep_owner d) (of_optional owner).

(** Lines 59-65. *)
Definition filter_depositions (title : string) (owner : option string)
    (records : list deposition) : list deposition :=
  filter (matches title owner) records.

(** [sorted(l, key=key, reverse=True)]: a stable sort into descending key
    order; elements with equal keys keep their original order. *)
Section Sorted.
Context {A : Type} (key : A -> string).

Fixpoint insert_reverse (x : A) (l : list A) : list A :=
  match l with
  | [] => [x]
  | y :: l' =>
      if PyStr.lt (key x) (key y) then y :: insert_reverse x l'
      else x :: l
  end.

Fixpoint sorted_reverse (l : list A) : list A :=
  match l with
  | [] => []
  | x :: l' => insert_reverse x (sorted_reverse l')
  end.

(** The order of the result: no later element has a greater key. *)
Definition descending (a b : A) : Prop := PyStr.le (key b) (key a) = true.
End Sorted.

(** [if not deposition_id:] on the first component of the search result. *)
Definition not_deposition_id (found : option handle) : bool :=
  match found with
  | None => true
  | Some (deposition_id, _, _) => deposition_id =? 0
  end.

(** [content.split("=")[-1].strip()] *)
Definition current_file_checksum (content : string) : string :=
  PyStr.strip (PyStr.last_item (PyStr.split "=" content)).

Definition md5sum_file (filename env : string) : string :=
  (PyStr.dirname filename ++ "/" ++ env ++ "-md5sum.txt")%string.

Section Script.
Variable w : World.

(** [requests.get/post/put]: the request is logged and answered by the
    world from what happened so far. *)
Definition requests (r : request) : M (Z * option json) :=
  fun t =>
    match respond w t r with
    | Transport_error => (t ++ [Http r], Raise ConnectionError)
    | Http_response status_code b => (t ++ [Http r], Return (status_code, b))
    end.

(** [r.json()] *)
Definition response_json (b : option json) : M json :=
  match b with
  | Some j => ret j
  | None => raise JSONDecodeError
  end.

(** Indexing the decoded document with a string key. *)
Definition as_object (j : json) : M deposition :=
  match j with
  | Json_object d => ret d
  | Json_list _ => raise TypeError
  end.

(** [with open(path) as fp: fp.read()] *)
Definition open_read (path : string) : M string :=
  fun t =>
    match read_file w path with
    | Some content => (t ++ [Open path], Return content)
    | None => (t ++ [Open path], Raise (OSError path))
    end.

Definition created (h : handle) : M handle := emit (Created h) ;; ret h.

Definition search_for_deposition (title : string) (owner : option string)
  : M (option handle) :=
  emit (Call (search_for_deposition_call title owner)) ;;
  let search := search_query title owner in
  found <- try_except
    ('(status_code, b) <- requests (GET_search search) ;;
     j <- response_json b ;;
     if negb (status_code =? 200) then raise (RuntimeError status_code)
     else ret (Some j))
    (ret None) ;;
  match found with
  | None => ret None
  | Some (Json_object _) =>
      (* the hits of an object are its keys: line 62 indexes a str *)
      raise TypeError
  | Some (Json_list records) =>
      match records with
      | [] => ret None
      | _ =>
          let depositions := filter_depositions title owner records in
          match depositions with
          | [] => ret None
          | _ =>
              match sorted_reverse dep_publication_date depositions with
              | deposition :: _ => ret (Some (handle_of deposition))
              | [] => raise IndexError
              end
          end
      end
  end.

Definition create_new_version (deposition_id : Z) : M handle :=
  emit (Call (create_new_version_call deposition_id)) ;;
  '(status_code, b) <- requests (POST_newversion deposition_id) ;;
  raise_for_status status_code ;;
  j <- response_json b ;;
  deposition <- as_object j ;;
  let new_deposition_url := dep_latest_draft deposition in
  let new_deposition_id := PyStr.last_item (PyStr.split "/" new_deposition_url) in
  '(status_code, b) <- requests (GET_draft new_deposition_id) ;;
  raise_for_status status_code ;;
  j <- response_json b ;;
  deposition <- as_object j ;;
  created (handle_of deposition).

Definition create_new_deposition : M handle :=
  emit (Call create_new_deposition_call) ;;
  '(status_code, b) <- requests POST_depositions ;;
  raise_for_status status_code ;;
  j <- response_json b ;;
  deposition <- as_object j ;;
  created (handle_of deposition).

Definition upload_to_zenodo (deposition_id : Z)
    (filename bucket_url file_url filebase env : string) : M unit :=
  emit (Call (upload_to_zenodo_call deposition_id filename bucket_url file_url
                filebase env)) ;;
  already_uploaded <-
    (if PyStr.endswith filename ".tar.gz" then
       '(status_code, b) <- requests (GET_deposition deposition_id) ;;
       raise_for_status status_code ;;
       j <- response_json b ;;
       d <- as_object j ;;
       let files_checksums := map file_checksum (dep_files d) in
       content <- open_read (md5sum_file filename env) ;;
       ret (existsb (String.eqb (current_file_checksum content)) files_checksums)
     else ret false) ;;
  if already_uploaded : bool then ret tt
  else
    data <- open_read filename ;;
    '(status_code, _) <- requests (PUT_file bucket_url filebase data) ;;
    raise_for_status status_code.

Definition add_meta_data (deposition_id : Z) (m : meta_data) : M unit :=
  emit (Call (add_meta_data_call deposition_id m)) ;;
  '(status_code, _) <- requests (PUT_metadata deposition_id m) ;;
  raise_for_status status_code.

Definition publish_file (deposition_id : Z) : M unit :=
  emit (Call (publish_file_call deposition_id)) ;;
  '(status_code, _) <- requests (POST_publish deposition_id) ;;
  raise_for_status status_code.

(** Lines 281-310: no deposition was found. *)
Definition upload_to_new_deposition (a : args) (c : config) : M unit :=
  '(deposition_id, bucket_url, file_url) <- create_new_deposition ;;
  for_each (files_to_upload a) (fun file =>
    let filename := os_path_abspath w file in
    let filebase := PyStr.basename filename in
    if negb (os_path_isfile w filename) then raise (FileNotFoundError filename)
    else
      upload_to_zenodo deposition_id file bucket_url file_url filebase (env_name c) ;;
      add_meta_data deposition_id (zenodo_metadata c)) ;;
  if publish a then publish_file deposition_id else ret tt.

(** Lines 313-333: one pass of the loop of the other branch; the three
    variables are reassigned. *)
Definition new_version_pass (c : config) (h : handle) (file : string) : M handle :=
  let '(deposition_id, _, _) := h in
  let filename := os_path_abspath w file in
  let filebase := PyStr.basename filename in
  if negb (os_path_isfile w filename) then raise (FileNotFoundError filename)
  else
    '(deposition_id, bucket_url, file_url) <- create_new_version deposition_id ;;
    upload_to_zenodo deposition_id file bucket_url file_url filebase (env_name c) ;;
    ret (deposition_id, bucket_url, file_url).

(** Lines 312-335: a deposition was found. *)
Definition upload_new_versions (a : args) (c : config) (h : handle) : M unit :=
  '(deposition_id, _, _) <- for_each_with (files_to_upload a) h (new_version_pass c) ;;
  if publish a then publish_file deposition_id else ret tt.

(** Lines 244-335. *)
Definition main (a : args) : M unit :=
  if negb (truthy (ZENODO_ACCESS_TOKEN a))
  then raise (SystemExit "No access token provided!")
  else if negb (truthy (ZENODO_OWNER_ID a))
  then raise (SystemExit "No owner ID provided!")
  else
    let owner := ZENODO_OWNER_ID a in
    let config_file := os_path_abspath w (config_file a) in
    if negb (os_path_isfile w config_file) then raise (FileNotFoundError config_file)
    else
      emit (Open config_file) ;;
      match load_config w config_file with
      | None => raise (SystemExit "Please add metadata to the config file")
      | Some c =>
          found <- search_for_deposition (metadata_title (zenodo_metadata c)) owner ;;
          match found with
          | Some h =>
              if not_deposition_id found then upload_to_new_deposition a c
              else upload_new_versions a c h
          | None => upload_to_new_deposition a c
          end
      end.

End Script.

(** ** Notions used in the statements *)

(** [best] is the first element of [l] whose key is the greatest: every
    element before it has a strictly smaller key, every element after it
    a smaller or equal one. *)
Definition latest_first {A} (key : A -> string) (l : list A) (best : A) : Prop :=
  exists before after,
    l = before ++ best :: after
    /\ Forall (fun x => PyStr.lt (key x) (key best) = true) before
    /\ Forall (fun x => PyStr.le (key x) (key best) = true) after.

Definition slash_to_space (c : ascii) : ascii :=
  if Ascii.eqb c "/" then " "%char else c.

(** Everything after the last occurrence of [sep] in [s] (all of [s] when
    there is none). *)
Fixpoint after_last (sep : ascii) (s : string) : string :=
  match s with
  | EmptyString => EmptyString
  | String c s' =>
      if PyStr.contains_char sep s' then after_last sep s'
      else if Ascii.eqb c sep then s' else s
  end.

(** The ways a lookup comes back without a match. *)
Inductive lookup_fails (title : string) (owner : option string) : response -> Prop :=
| transport_error :
    lookup_fails title owner Transport_error
| not_200 status_code b :
    status_code <> 200 -> lookup_fails title owner (Http_response status_code b)
| zero_results :
    lookup_fails title owner (Http_response 200 (Some (Json_list [])))
| no_candidate records :
    filter_depositions title owner records = [] ->
    lookup_fails title owner (Http_response 200 (Some (Json_list records))).

(** The run gets as far as the search: both environment variables are set
    and the configuration file loads as [c]. *)
Definition ready (w : World) (a : args) (c : config) : Prop :=
  truthy (ZENODO_ACCESS_TOKEN a) = true
  /\ truthy (ZENODO_OWNER_ID a) = true
  /\ os_path_isfile w (os_path_abspath w (config_file a)) = true
  /\ load_config w (os_path_abspath w (config_file a)) = Some c.

(** The log of a run up to and including the search. *)
Definition search_events (w : World) (a : args) (c : config) : trace :=
  let title := metadata_title (zenodo_metadata c) in
  [Open (os_path_abspath w (config_file a));
   Call (search_for_deposition_call title (ZENODO_OWNER_ID a));
   Http (GET_search (search_query title (ZENODO_OWNER_ID a)))].

(** What the search of a run returns. *)
Definition resolved (w : World) (a : args) (c : config) : result (option handle) :=
  snd (search_for_deposition w (metadata_title (zenodo_metadata c)) (ZENODO_OWNER_ID a)
         [Open (os_path_abspath w (config_file a))]).

(** Every event a computation adds to the log satisfies [P]. *)
Definition emits_only {A} (P : event -> Prop) (m : M A) : Prop :=
  forall t t' r, m t = (t', r) -> exists new, t' = t ++ new /\ Forall P new.

Definition is_new_version_call (e : event) : bool :=
  match e with
  | Call (create_new_version_call _) => true
  | _ => false
  end.

(** The effects inside one [upload_to_zenodo] call: reads and requests. *)
Definition is_effect (e : event) : bool :=
  match e with
  | Open _ | Http _ => true
  | _ => false
  end.

(** Projections of a log: the events [f] selects, in order. *)
Fixpoint pick {X} (f : event -> option X) (t : trace) : list X :=
  match t with
  | [] => []
  | e :: t' =>
      match f e with
      | Some x => x :: pick f t'
      | None => pick f t'
      end
  end.

(** The deposition each [create_new_version] call was made for. *)
Definition new_version_calls : trace -> list Z :=
  pick (fun e =>
          match e with
          | Call (create_new_version_call deposition_id) => Some deposition_id
          | _ => None
          end).

(** The triples the [create_new_*] functions returned. *)
Definition created_handles : trace -> list handle :=
  pick (fun e => match e with Created h => Some h | _ => None end).

(** The target [(deposition_id, bucket_url, file_url)] of each upload. *)
Definition upload_targets : trace -> list handle :=
  pick (fun e =>
          match e with
          | Call (upload_to_zenodo_call deposition_id _ bucket_url file_url _ _) =>
              Some (deposition_id, bucket_url, file_url)
          | _ => None
          end).

Definition uploaded_files : trace -> list string :=
  pick (fun e =>
          match e with
          | Call (upload_to_zenodo_call _ filename _ _ _ _) => Some filename
          | _ => None
          end).

Definition publish_calls : trace -> list Z :=
  pick (fun e =>
          match e with
          | Call (publish_file_call deposition_id) => Some deposition_id
          | _ => None
          end).

Definition metadata_calls : trace -> list Z :=
  pick (fun e =>
          match e with
          | Call (add_meta_data_call deposition_id _) => Some deposition_id
          | _ => None
          end).

Definition handle_id (h : handle) : Z := fst (fst h).

(** The log of the passes of the loop over [files] that starts with the
    handle [h] and ends with [h']: each pass opens a version of the
    deposition the previous pass left, and uploads the file into the draft
    it has just created. *)
Inductive version_passes (w : World) (env : string)
  : handle -> list string -> trace -> handle -> Prop :=
| passes_done h :
    version_passes w env h [] [] h
| passes_step h file files new_deposition_id h1 effects rest h' :
    Forall (fun e => is_effect e = true) effects ->
    version_passes w env h1 files rest h' ->
    version_passes w env h (file :: files)
      ([Call (create_new_version_call (handle_id h));
        Http (POST_newversion (handle_id h));
        Http (GET_draft new_deposition_id);
        Created h1;
        Call (upload_to_zenodo_call (handle_id h1) file (snd (fst h1)) (snd h1)
                (PyStr.basename (os_path_abspath w file)) env)]
       ++ effects ++ rest)
      h'.

(** The log of the loop of the creation branch over [files]: each file is
    uploaded into the one deposition [h] and the metadata [m] attached
    right after it. *)
Inductive creation_passes (w : World) (env : string) (h : handle) (m : meta_data)
  : list string -> trace -> Prop :=
| creation_done :
    creation_passes w env h m [] []
| creation_step file files effects rest :
    Forall (fun e => is_effect e = true) effects ->
    creation_passes w env h m files rest ->
    creation_passes w env h m (file :: files)
      (Call (upload_to_zenodo_call (handle_id h) file (snd (fst h)) (snd h)
               (PyStr.basename (os_path_abspath w file)) env)
       :: effects
       ++ [Call (add_meta_data_call (handle_id h) m);
           Http (PUT_metadata (handle_id h) m)]
       ++ rest).

Definition new_deposition_calls : trace -> list unit :=
  pick (fun e =>
          match e with
          | Call create_new_deposition_call => Some tt
          | _ => None
          end).

(** A status code of the 2xx class. *)
Definition is_2xx (status_code : Z) : bool :=
  (200 <=? status_code) && (status_code <? 300).

(** The requests whose failure nothing catches: all but the search. *)
Definition fatal (r : request) : bool :=
  match r with
  | GET_search _ => false
  | _ => true
  end.

(** A computation stops at the first error status of such a request: the
    request is the last event of the log and its [HTTPError] is the
    outcome. *)
Definition fail_stop (w : World) {A} (m : M A) : Prop :=
  forall t t' r, m t = (t', r) ->
    exists new, t' = t ++ new
      /\ forall pre req post status_code b,
           new = pre ++ Http req :: post ->
           fatal req = true ->
           respond w (t ++ pre) req = Http_response status_code b ->
           is_http_error status_code = true ->
           post = [] /\ r = Raise (HTTPError status_code).

(** ** Concrete runs

    A small service and machine, with knobs for what the statements below
    vary: the answer to the search, the status of the upload PUT, the files
    already stored in a deposition and the content of the checksum file. *)
Module Scenario.

Definition newline : string := String (ascii_of_N 10) EmptyString.

Definition deposit (id : Z) (title date : string) (owner : pyval)
    (bucket html latest_draft : string) (files : list file_entry) : deposition :=
  {| dep_id := id; dep_title := title; dep_publication_date := date;
     dep_owner := owner; dep_bucket := bucket; dep_html := html;
     dep_latest_draft := latest_draft; dep_files := files |}.

(** Two depositions of the title searched for, and one that matches
    neither the title nor the owner. *)
Definition older : deposition :=
  deposit 11 "env" "2023-01-05" (PyInt 42)
    "https://z.org/api/files/b11" "https://z.org/deposit/11" "" [].
Definition newer : deposition :=
  deposit 12 "env" "2024-03-01" (PyInt 42)
    "https://z.org/api/files/b12" "https://z.org/deposit/12" "" [].
Definition unrelated : deposition :=
  deposit 13 "other" "2024-06-30" (PyInt 7)
    "https://z.org/api/files/b13" "https://z.org/deposit/13" "" [].
(** Same owner as the search, another title. *)
Definition same_owner : deposition :=
  deposit 14 "other" "2022-02-02" (PyStr "42")
    "https://z.org/api/files/b14" "https://z.org/deposit/14" "" [].

Record knobs := {
  search_response : response;
  put_file_status : Z;
  stored : list file_entry;
  sidecar : string
}.

(** The draft the service opens for a new version of deposition [id]. *)
Definition draft_name (id : Z) : string :=
  if id =? 12 then "112" else if id =? 112 then "212" else "312".
Definition draft (k : knobs) (name : string) : deposition :=
  if String.eqb name "112"
  then deposit 112 "env" "" (PyInt 42)
         "https://z.org/api/files/b112" "https://z.org/deposit/112" "" (stored k)
  else if String.eqb name "212"
  then deposit 212 "env" "" (PyInt 42)
         "https://z.org/api/files/b212" "https://z.org/deposit/212" "" (stored k)
  else deposit 312 "env" "" (PyInt 42)
         "https://z.org/api/files/b312" "https://z.org/deposit/312" "" (stored k).
Definition blank (k : knobs) : deposition :=
  deposit 20 "" "" (PyInt 42)
    "https://z.org/api/files/b20" "https://z.org/deposit/20" "" (stored k).

Definition world (k : knobs) : World :=
  {| respond := fun _ req =>
       match req with
       | GET_search _ => search_response k
       | POST_newversion id =>
           Http_response 201
             (Some (Json_object
                (deposit id "env" "" (PyInt 42) "" ""
                   ("https://z.org/api/deposit/depositions/" ++ draft_name id)%string [])))
       | GET_draft name => Http_response 200 (Some (Json_object (draft k name)))
       | POST_depositions => Http_response 201 (Some (Json_object (blank k)))
       | GET_deposition id => Http_response 200 (Some (Json_object (blank k)))
       | PUT_file _ _ _ => Http_response (put_file_status k) None
       | PUT_metadata _ _ => Http_response 200 None
       | POST_publish _ => Http_response 202 None
       end;
     read_file := fun path =>
       if String.eqb path "dist/env-md5sum.txt" then Some (sidecar k)
       else Some "bytes";
     os_path_isfile := fun _ => true;
     os_path_abspath := fun path => ("/work/" ++ path)%string;
     load_config := fun _ =>
       Some {| zenodo_metadata := {| metadata_title := "env"; metadata_rest := "{}" |};
               env_name := "env" |} |}.

Definition the_config : config :=
  {| zenodo_metadata := {| metadata_title := "env"; metadata_rest := "{}" |};
     env_name := "env" |}.

Definition run_args (files : list string) (publish : bool) : args :=
  {| files_to_upload := files; config_file := "config.yml"; publish := publish;
     ZENODO_ACCESS_TOKEN := Some "secret"; ZENODO_OWNER_ID := Some "42" |}.

Definition found : response :=
  Http_response 200 (Some (Json_list [older; newer; unrelated])).
Definition nothing_found : response :=
  Http_response 200 (Some (Json_list [])).

Definition plain (search : response) (status : Z) : knobs :=
  {| search_response := search; put_file_status := status; stored := [];
     sidecar := "" |}.

(** A checksum file as [openssl md5] writes it, and the same checksum
    stored with and without the surrounding white space. *)
Definition checksum_line : string := ("MD5(env.tar.gz)= 0cc1" ++ newline)%string.
Definition archive (stored_checksum : string) : knobs :=
  {| search_response := nothing_found; put_file_status := 200;
     stored := [{| file_key := "env.tar.gz"; file_checksum := stored_checksum |}];
     sidecar := checksum_line |}.

End Scenario.

(** ** Notions used in the further properties *)

(** How far a run of [main] got: it stopped before the search on a
    configuration error, stopped at the search, or went into one of the two
    branches. *)
Inductive run_stage (w : World) (a : args) (tr : trace) (r : result unit) : Prop :=
| stopped_at_configuration e :
    (forall c, ~ ready w a c) ->
    tr = [] \/ tr = [Open (os_path_abspath w (config_file a))] ->
    r = Raise e ->
    run_stage w a tr r
| stopped_at_search c e :
    ready w a c ->
    resolved w a c = Raise e ->
    tr = search_events w a c ->
    r = Raise e ->
    run_stage w a tr r
| creation_branch c found :
    ready w a c ->
    resolved w a c = Return found ->
    not_deposition_id found = true ->
    upload_to_new_deposition w a c (search_events w a c) = (tr, r) ->
    run_stage w a tr r
| versioning_branch c h :
    ready w a c ->
    resolved w a c = Return (Some h) ->
    not_deposition_id (Some h) = false ->
    upload_new_versions w a c h (search_events w a c) = (tr, r) ->
    run_stage w a tr r.

(** An upload call of a run is for one of the files of the command line,
    one that [os.path.isfile] accepted, under the base name of its absolute
    path and with the configured environment name. *)
Definition upload_call_checked (w : World) (a : args) (c : config) (e : event) : Prop :=
  match e with
  | Call (upload_to_zenodo_call _ filename _ _ filebase env) =>
      In filename (files_to_upload a)
      /\ os_path_isfile w (os_path_abspath w filename) = true
      /\ filebase = PyStr.basename (os_path_abspath w filename)
      /\ env = env_name c
  | _ => True
  end.

(** The requests whose body the script decodes and indexes. *)
Definition decoded (r : request) : bool :=
  match r with
  | POST_newversion _ | GET_draft _ | POST_depositions | GET_deposition _ => true
  | _ => false
  end.

(** The exception an answer to a request raises in the script, if any:
    nothing for the search, whose failures are caught; otherwise a
    [ConnectionError] when there is no answer, an [HTTPError] for an error
    status and, where the body is used, the error of decoding or indexing
    it. *)
Definition failure (req : request) (resp : response) : option exn :=
  if fatal req then
    match resp with
    | Transport_error => Some ConnectionError
    | Http_response status_code b =>
        if is_http_error status_code then Some (HTTPError status_code)
        else if decoded req then
          match b with
          | None => Some JSONDecodeError
          | Some (Json_list _) => Some TypeError
          | Some (Json_object _) => None
          end
        else None
    end
  else None.

(** A computation stops at the first answer that raises. *)
Definition aborts_on_failure (w : World) {A} (m : M A) : Prop :=
  forall t t' r, m t = (t', r) ->
    exists new, t' = t ++ new
      /\ forall pre req post e,
           new = pre ++ Http req :: post ->
           failure req (respond w (t ++ pre) req) = Some e ->
           post = [] /\ r = Raise e.

(** Neither the call of [publish_file] nor its request. *)
Definition not_publish (e : event) : Prop :=
  match e with
  | Call (publish_file_call _) | Http (POST_publish _) => False
  | _ => True
  end.

(** What a branch logs before its publication. *)
Definition before_publication (w : World) (a : args) (c : config) (e : event) : Prop :=
  upload_call_checked w a c e /\ not_publish e.

(** The end of a branch: nothing, or the publication. *)
Definition publication (a : args) (tail : trace) : Prop :=
  tail = []
  \/ (publish a = true
      /\ exists deposition_id,
           tail = [Call (publish_file_call deposition_id);
                   Http (POST_publish deposition_id)]).

(** More machines and services: one where some paths are not files, one
    without the checksum file, and one that stops answering a given
    request. *)
Module Faults.

Definition missing_files (missing : list string) (w : World) : World :=
  {| respond := respond w;
     read_file := read_file w;
     os_path_isfile := fun path =>
       negb (existsb (String.eqb path) missing);
     os_path_abspath := os_path_abspath w;
     load_config := load_config w |}.

Definition unreadable (paths : list string) (w : World) : World :=
  {| respond := respond w;
     read_file := fun path =>
       if existsb (String.eqb path) paths then None else read_file w path;
     os_path_isfile := os_path_isfile w;
     os_path_abspath := os_path_abspath w;
     load_config := load_config w |}.

Definition answering (answer : request -> option response) (w : World) : World :=
  {| respond := fun t req =>
       match answer req with
       | Some resp => resp
       | None => respond w t req
       end;
     read_file := read_file w;
     os_path_isfile := os_path_isfile w;
     os_path_abspath := os_path_abspath w;
     load_config := load_config w |}.

Definition no_config (w : World) : World :=
  {| respond := respond w;
     read_file := read_file w;
     os_path_isfile := os_path_isfile w;
     os_path_abspath := os_path_abspath w;
     load_config := fun _ => None |}.

End Faults.

(** * Properties *)

(** ** The string operations on the script's own inputs *)

Example strip_checksum :
  PyStr.strip ("  0cc1 " ++ Scenario.newline)%string = "0cc1".
Proof. reflexivity. Qed.

Example split_checksum_line :
  PyStr.split "=" "MD5(f)= ab=c" = ["MD5(f)"; " ab"; "c"].
Proof. reflexivity. Qed.

Example replace_record_url :
  PyStr.replace "deposit" "record" "https://z.org/deposit/12" = "https://z.org/record/12".
Proof. reflexivity. Qed.

Example replace_does_not_overlap : PyStr.replace "aa" "b" "aaaaa" = "bba".
Proof. reflexivity. Qed.

Example replace_slashes : PyStr.replace "/" " " "My/Project v2" = "My Project v2".
Proof. reflexivity. Qed.

Example dirname_basename :
  PyStr.dirname "a/b/c.tar.gz" = "a/b"
  /\ PyStr.dirname "c.tar.gz" = ""
  /\ PyStr.dirname "/c" = "/"
  /\ PyStr.dirname "a//c" = "a"
  /\ PyStr.basename "a/b/c.tar.gz" = "c.tar.gz".
Proof. repeat split. Qed.

Example endswith_archive :
  PyStr.endswith "x.tar.gz" ".tar.gz" = true /\ PyStr.endswith "x.tar" ".tar.gz" = false.
Proof. split; reflexivity. Qed.

Example search_query_with_slash :
  search_query "My/Project v2" (Some "42")
  = ("metadata.title:" ++ dquote ++ "My Project v2" ++ dquote ++ " owners:42")%string.
Proof. reflexivity. Qed.

Example md5sum_file_beside_archive :
  md5sum_file "dist/env.tar.gz" "env" = "dist/env-md5sum.txt".
Proof. reflexivity. Qed.

(** ** The order on strings *)
Section StringOrder.

Lemma lt_iff a b : PyStr.lt a b = true <-> String_as_OT.lt a b.
Proof.
  unfold PyStr.lt, String.ltb. rewrite <- String_as_OT.cmp_lt.
  unfold String_as_OT.cmp. destruct (String.compare a b); split; congruence.
Qed.

Lemma le_iff a b : PyStr.le a b = true <-> PyStr.lt a b = true \/ a = b.
Proof.
  unfold PyStr.le, PyStr.lt, String.leb, String.ltb.
  destruct (String.compare a b) eqn:E; split; intros H; auto; try discriminate.
  - right. now apply String_as_OT.cmp_eq.
  - destruct H as [H | ->]; [discriminate |].
    assert (String.compare b b = Eq) by now apply String_as_OT.cmp_eq.
    congruence.
Qed.

Lemma le_refl a : PyStr.le a a = true.
Proof. apply le_iff. now right. Qed.

Lemma lt_le a b : PyStr.lt a b = true -> PyStr.le a b = true.
Proof. intros. apply le_iff. now left. Qed.

Lemma lt_trans a b c :
  PyStr.lt a b = true -> PyStr.lt b c = true -> PyStr.lt a c = true.
Proof. rewrite !lt_iff. apply String_as_OT.lt_trans. Qed.

Lemma lt_irrefl a : PyStr.lt a a = false.
Proof.
  destruct (PyStr.lt a a) eqn:E; [| reflexivity].
  apply lt_iff in E. apply String_as_OT.lt_not_eq in E. now elim E.
Qed.

Lemma le_trans a b c :
  PyStr.le a b = true -> PyStr.le b c = true -> PyStr.le a c = true.
Proof.
  rewrite !le_iff. intros [H1 | ->] [H2 | ->]; auto.
  left. eapply lt_trans; eauto.
Qed.

Lemma not_lt_le a b : PyStr.lt a b = false -> PyStr.le b a = true.
Proof.
  unfold PyStr.lt, PyStr.le, String.ltb, String.leb.
  rewrite (String.compare_antisym a b).
  destruct (String.compare b a); simpl; congruence.
Qed.

Lemma le_antisym a b : PyStr.le a b = true -> PyStr.le b a = true -> a = b.
Proof. apply String.leb_antisym. Qed.

Lemma le_lt_trans a b c :
  PyStr.le a b = true -> PyStr.lt b c = true -> PyStr.lt a c = true.
Proof.
  rewrite le_iff. intros [H | ->] H2; auto. eapply lt_trans; eauto.
Qed.

End StringOrder.

(** ** [sorted(..., reverse=True)] is a stable descending sort *)
Section SortedFacts.
Context {A : Type} (key : A -> string).

Lemma insert_reverse_perm x l : Permutation (x :: l) (insert_reverse key x l).
Proof.
  induction l as [| y l IH]; simpl; [reflexivity |].
  destruct (PyStr.lt (key x) (key y)); [| reflexivity].
  rewrite perm_swap. now constructor.
Qed.

Lemma sorted_reverse_perm l : Permutation l (sorted_reverse key l).
Proof.
  induction l as [| x l IH]; simpl; [constructor |].
  rewrite <- insert_reverse_perm. now constructor.
Qed.

Lemma insert_reverse_descending x l :
  StronglySorted (descending key) l ->
  StronglySorted (descending key) (insert_reverse key x l).
Proof.
  induction 1 as [| y l Hs IH Hall]; simpl.
  - repeat constructor.
  - destruct (PyStr.lt (key x) (key y)) eqn:E.
    + constructor; [exact IH |].
      rewrite <- insert_reverse_perm. constructor; [| exact Hall].
      now apply lt_le.
    + apply not_lt_le in E. constructor; [now constructor |].
      constructor; [exact E |].
      eapply Forall_impl; [| exact Hall].
      intros z Hz. unfold descending in *. eapply le_trans; eauto.
Qed.

Lemma sorted_reverse_descending l :
  StronglySorted (descending key) (sorted_reverse key l).
Proof.
  induction l; simpl; [constructor | now apply insert_reverse_descending].
Qed.

(** Stability: the elements of one key come out in their original order. *)
Lemma insert_reverse_stable k x l :
  filter (fun y => String.eqb (key y) k) (insert_reverse key x l)
  = filter (fun y => String.eqb (key y) k) (x :: l).
Proof.
  induction l as [| y l IH]; [reflexivity |].
  cbn [insert_reverse]. destruct (PyStr.lt (key x) (key y)) eqn:E; [| reflexivity].
  cbn [filter] in *. rewrite IH.
  destruct (String.eqb_spec (key x) k) as [Hx | Hx]; [| reflexivity].
  destruct (String.eqb_spec (key y) k) as [Hy | Hy]; [| reflexivity].
  rewrite Hx, Hy, lt_irrefl in E. discriminate.
Qed.

Lemma sorted_reverse_stable k l :
  filter (fun y => String.eqb (key y) k) (sorted_reverse key l)
  = filter (fun y => String.eqb (key y) k) l.
Proof.
  induction l as [| x l IH]; [reflexivity |].
  cbn [sorted_reverse]. rewrite insert_reverse_stable. cbn [filter].
  now rewrite IH.
Qed.

Lemma latest_first_bound l best :
  latest_first key l best -> Forall (fun x => PyStr.le (key x) (key best) = true) l.
Proof.
  intros (before & after & -> & Hb & Ha).
  apply Forall_app. split.
  - eapply Forall_impl; [| exact Hb]. intros; now apply lt_le.
  - constructor; [apply le_refl | exact Ha].
Qed.

Lemma latest_first_In l best : latest_first key l best -> In best l.
Proof. intros (before & after & -> & _). apply in_elt. Qed.

(** The head of the sorted list is the first element with the greatest
    key. *)
Lemma sorted_reverse_head l :
  l <> [] ->
  exists best rest, sorted_reverse key l = best :: rest /\ latest_first key l best.
Proof.
  induction l as [| x l IH]; [congruence | intros _].
  cbn [sorted_reverse]. destruct l as [| y l].
  - exists x, []. split; [reflexivity |]. exists [], []. repeat split; constructor.
  - destruct IH as (best & rest & Hs & Hbest); [congruence |].
    rewrite Hs. cbn [insert_reverse].
    destruct (PyStr.lt (key x) (key best)) eqn:E.
    + exists best, (insert_reverse key x rest). split; [reflexivity |].
      destruct Hbest as (before & after & Hl & Hb & Ha).
      exists (x :: before), after. rewrite Hl. repeat split; auto.
    + exists x, (best :: rest). split; [reflexivity |].
      exists [], (y :: l). repeat split; [constructor |].
      apply not_lt_le in E. apply latest_first_bound in Hbest.
      eapply Forall_impl; [| exact Hbest].
      intros z Hz. simpl in Hz. eapply le_trans; eauto.
Qed.

Lemma NoDup_map_inj (l : list A) a b :
  NoDup (map key l) -> In a l -> In b l -> key a = key b -> a = b.
Proof.
  induction l as [| x l IH]; simpl; [tauto |].
  intros Hnd [-> | Ha] [-> | Hb] Hk; auto; inversion Hnd; subst.
  - exfalso. apply H1. rewrite Hk. now apply in_map.
  - exfalso. apply H1. rewrite <- Hk. now apply in_map.
  - now apply IH.
Qed.

(** With distinct keys the choice does not depend on the order of the
    list. *)
Lemma latest_first_unique l l' best best' :
  Permutation l l' -> NoDup (map key l) ->
  latest_first key l best -> latest_first key l' best' -> best = best'.
Proof.
  intros Hp Hnd H H'.
  pose proof (latest_first_In _ _ H) as Hin.
  pose proof (latest_first_In _ _ H') as Hin'.
  apply latest_first_bound in H, H'.
  rewrite Forall_forall in H, H'.
  apply (NoDup_map_inj l); auto.
  - eapply Permutation_in; [symmetry; exact Hp | exact Hin'].
  - apply le_antisym.
    + apply H'. eapply Permutation_in; eauto.
    + apply H. eapply Permutation_in; [symmetry; exact Hp | exact Hin'].
Qed.

End SortedFacts.

(** ** Reasoning about computations *)
Section MonadFacts.

Lemma bind_inv {A B} (m : M A) (k : A -> M B) t t' r :
  bind m k t = (t', r) ->
  (exists t1 a, m t = (t1, Return a) /\ k a t1 = (t', r))
  \/ (exists e, m t = (t', Raise e) /\ r = Raise e).
Proof.
  unfold bind. destruct (m t) as [t1 [a | e]]; intros H.
  - left. eauto.
  - right. inversion H; subst. eauto.
Qed.

Lemma bind_Return {A B} (m : M A) (k : A -> M B) t t1 a :
  m t = (t1, Return a) -> bind m k t = k a t1.
Proof. unfold bind. now intros ->. Qed.

Lemma bind_Raise {A B} (m : M A) (k : A -> M B) t t1 e :
  m t = (t1, Raise e) -> bind m k t = (t1, Raise e).
Proof. unfold bind. now intros ->. Qed.

Lemma app_split {X} (n1 n2 pre post : list X) e :
  n1 ++ n2 = pre ++ e :: post ->
  (exists post1, n1 = pre ++ e :: post1 /\ post = post1 ++ n2)
  \/ (exists pre2, pre = n1 ++ pre2 /\ n2 = pre2 ++ e :: post).
Proof.
  revert pre. induction n1 as [| x n1 IH]; intros pre H.
  - right. exists pre. auto.
  - destruct pre as [| y pre]; simpl in H; inversion H; subst.
    + left. exists n1. auto.
    + destruct (IH _ H2) as [(post1 & -> & ->) | (pre2 & -> & ->)].
      * left. exists post1. auto.
      * right. exists pre2. auto.
Qed.

Lemma app_same_nil {X} (t new : list X) : t = t ++ new -> new = [].
Proof.
  intros H. rewrite <- (app_nil_r t) in H at 1. now apply app_inv_head in H.
Qed.

End MonadFacts.

Section EmitsOnly.
Context (P : event -> Prop).

Lemma emits_only_pure {A} (m : M A) :
  (forall t, fst (m t) = t) -> emits_only P m.
Proof.
  intros H t t' r E. exists []. rewrite app_nil_r. split; [| constructor].
  specialize (H t). rewrite E in H. now simpl in H.
Qed.

Lemma emits_only_ret {A} (a : A) : emits_only P (ret a).
Proof. now apply emits_only_pure. Qed.

Lemma emits_only_raise {A} e : emits_only P (@raise A e).
Proof. now apply emits_only_pure. Qed.

Lemma emits_only_emit e : P e -> emits_only P (emit e).
Proof.
  intros H t t' r E. inversion E; subst. exists [e]. split; auto.
Qed.

Lemma emits_only_bind {A B} (m : M A) (k : A -> M B) :
  emits_only P m -> (forall a, emits_only P (k a)) -> emits_only P (bind m k).
Proof.
  intros Hm Hk t t' r E.
  apply bind_inv in E as [(t1 & a & E1 & E2) | (e & E1 & ->)].
  - apply Hm in E1 as (n1 & -> & H1). apply Hk in E2 as (n2 & -> & H2).
    exists (n1 ++ n2). rewrite app_assoc. split; [reflexivity |].
    apply Forall_app; auto.
  - now apply Hm in E1.
Qed.

Lemma emits_only_try_except {A} (m h : M A) :
  emits_only P m -> emits_only P h -> emits_only P (try_except m h).
Proof.
  intros Hm Hh t t' r E. unfold try_except in E.
  destruct (m t) as [t1 [a | e]] eqn:E1.
  - inversion E; subst. eauto.
  - apply Hm in E1 as (n1 & -> & H1).
    assert (D : (exists msg, e = SystemExit msg)
                \/ h (t ++ n1) = (t', r)) by (destruct e; eauto).
    destruct D as [(msg & ->) | E2].
    + inversion E; subst. eauto.
    + apply Hh in E2 as (n2 & -> & H2).
      exists (n1 ++ n2). rewrite app_assoc. split; [reflexivity |].
      apply Forall_app; auto.
Qed.

Lemma emits_only_requests w req : P (Http req) -> emits_only P (requests w req).
Proof.
  intros H t t' r E. unfold requests in E.
  exists [Http req]. split; [| auto].
  destruct (respond w t req); now inversion E.
Qed.

Lemma emits_only_open_read w path : P (Open path) -> emits_only P (open_read w path).
Proof.
  intros H t t' r E. unfold open_read in E.
  exists [Open path]. split; [| auto].
  destruct (read_file w path); now inversion E.
Qed.

Lemma emits_only_for_each {A} (l : list A) (f : A -> M unit) :
  (forall x, emits_only P (f x)) -> emits_only P (for_each l f).
Proof.
  intros H. induction l; simpl.
  - apply emits_only_ret.
  - apply emits_only_bind; auto.
Qed.

Lemma emits_only_for_each_with {S A} (l : list A) (f : S -> A -> M S) :
  (forall s x, emits_only P (f s x)) -> forall s, emits_only P (for_each_with l s f).
Proof.
  intros H. induction l; simpl; intros s.
  - apply emits_only_ret.
  - apply emits_only_bind; auto.
Qed.

Lemma emits_first_then {A} e (k : unit -> M A) t t' r :
  emits_only P (k tt) ->
  bind (emit e) k t = (t', r) ->
  exists rest, t' = t ++ e :: rest /\ Forall P rest.
Proof.
  intros Hk E. unfold bind, emit in E.
  apply Hk in E as (rest & -> & Hrest).
  exists rest. now rewrite <- app_assoc.
Qed.

Lemma bind_emit_assoc {A B} e (k1 : unit -> M A) (k2 : A -> M B) t :
  bind (bind (emit e) k1) k2 t = bind (emit e) (fun u => bind (k1 u) k2) t.
Proof. reflexivity. Qed.

End EmitsOnly.

(** One step of a proof that a function emits only events of some kind. *)
Ltac emits_step :=
  match goal with
  | |- emits_only _ (bind _ _) => apply emits_only_bind; [| intros]
  | |- emits_only _ (ret _) => apply emits_only_ret
  | |- emits_only _ (raise _) => apply emits_only_raise
  | |- emits_only _ (emit _) => apply emits_only_emit
  | |- emits_only _ (requests _ _) => apply emits_only_requests
  | |- emits_only _ (open_read _ _) => apply emits_only_open_read
  | |- emits_only _ (try_except _ _) => apply emits_only_try_except
  | |- emits_only _ (for_each _ _) => apply emits_only_for_each; intros
  | |- emits_only _ (for_each_with _ _ _) => apply emits_only_for_each_with; intros
  | |- emits_only _ (raise_for_status ?s) =>
      unfold raise_for_status; destruct (is_http_error s)
  | |- emits_only _ (response_json ?b) => destruct b; simpl
  | |- emits_only _ (as_object ?j) => destruct j; simpl
  | |- emits_only _ (created _) => unfold created
  | |- emits_only _ (let _ := _ in _) => cbv zeta
  | |- emits_only _ (if ?b then _ else _) => destruct b
  | |- emits_only _ (match ?x with _ => _ end) => destruct x
  end.

(** ** The Resolver: [search_for_deposition] *)
Section Resolver.
Variable w : World.

Lemma prefix_empty s : String.prefix EmptyString s = true.
Proof. now destruct s. Qed.

Lemma replace_slash s : PyStr.replace "/" " " s = PyStr.map_chars slash_to_space s.
Proof.
  unfold PyStr.replace. induction s as [| c s IH]; [reflexivity |].
  cbn [PyStr.replace_from PyStr.map_chars String.prefix String.length Nat.pred].
  unfold slash_to_space at 1.
  destruct (ascii_dec "/" c) as [<- | Hne].
  - rewrite prefix_empty. simpl. now rewrite IH.
  - destruct (Ascii.eqb_spec c "/") as [-> | _]; [congruence |].
    now rewrite IH.
Qed.

Lemma no_slash_left s : PyStr.contains_char "/" (PyStr.map_chars slash_to_space s) = false.
Proof.
  induction s as [| c s IH]; [reflexivity |].
  simpl. rewrite IH, orb_false_r. unfold slash_to_space.
  destruct (Ascii.eqb c "/") eqn:E; [reflexivity | exact E].
Qed.

(** Whatever the outcome, a search logs its call and its one request. *)
Lemma search_trace title owner t :
  fst (search_for_deposition w title owner t)
  = t ++ [Call (search_for_deposition_call title owner);
          Http (GET_search (search_query title owner))].
Proof.
  unfold search_for_deposition, bind, emit, try_except, requests.
  destruct (respond w _ _) as [| status_code [j |]]; simpl;
    try (destruct (status_code =? 200); simpl);
    try (destruct j as [records | d]; simpl);
    try (destruct records; simpl);
    repeat match goal with
           | |- context [match ?x with _ => _ end] => destruct x; simpl
           end;
    now rewrite <- app_assoc.
Qed.

Lemma search_None title owner t :
  lookup_fails title owner
    (respond w (t ++ [Call (search_for_deposition_call title owner)])
       (GET_search (search_query title owner))) ->
  search_for_deposition w title owner t
  = (t ++ [Call (search_for_deposition_call title owner);
           Http (GET_search (search_query title owner))],
     Return None).
Proof.
  intros H. rewrite (surjective_pairing (search_for_deposition w title owner t)).
  rewrite search_trace. f_equal.
  unfold search_for_deposition, bind, emit, try_except, requests.
  inversion H as [E | st b Hst E | E | records Hf E]; simpl.
  - reflexivity.
  - apply Z.eqb_neq in Hst. destruct b; simpl; now rewrite ?Hst.
  - reflexivity.
  - destruct records; [reflexivity |]. now rewrite Hf.
Qed.

Lemma search_Some title owner t records :
  respond w (t ++ [Call (search_for_deposition_call title owner)])
    (GET_search (search_query title owner))
  = Http_response 200 (Some (Json_list records)) ->
  filter_depositions title owner records <> [] ->
  exists best,
    latest_first dep_publication_date (filter_depositions title owner records) best
    /\ search_for_deposition w title owner t
       = (t ++ [Call (search_for_deposition_call title owner);
                Http (GET_search (search_query title owner))],
          Return (Some (handle_of best))).
Proof.
  intros H Hne.
  destruct (sorted_reverse_head dep_publication_date _ Hne) as (best & rest & Hs & Hb).
  exists best. split; [exact Hb |].
  rewrite (surjective_pairing (search_for_deposition w title owner t)).
  rewrite search_trace. f_equal.
  unfold search_for_deposition, bind, emit, try_except, requests.
  rewrite H. simpl. destruct records as [| d records]; [now elim Hne |].
  destruct (filter_depositions title owner (d :: records)); [now elim Hne |].
  now rewrite Hs.
Qed.

End Resolver.

Lemma py_eq_iff a b : py_eq a b = true <-> a = b.
Proof.
  destruct a, b; simpl; split; intros H; try discriminate; try reflexivity.
  - apply Z.eqb_eq in H. now subst.
  - inversion H. apply Z.eqb_refl.
  - apply String.eqb_eq in H. now subst.
  - inversion H. apply String.eqb_refl.
Qed.

Lemma matches_iff title owner d :
  matches title owner d = true
  <-> dep_title d = title \/ dep_owner d = of_optional owner.
Proof.
  unfold matches. now rewrite orb_true_iff, String.eqb_eq, py_eq_iff.
Qed.

Lemma filter_perm {A} (f : A -> bool) l l' :
  Permutation l l' -> Permutation (filter f l) (filter f l').
Proof.
  induction 1; simpl.
  - constructor.
  - destruct (f x); auto.
  - destruct (f x), (f y); auto. apply perm_swap.
  - etransitivity; eauto.
Qed.

(** C3: when the search answers with records of which some pass the filter,
    the Resolver returns the candidate with the latest publication date, the
    first such candidate in result order when several share that date; and
    when the candidates' dates are distinct, the same records in any other
    order give the same result. *)
Theorem resolver_selects_latest_publication w title owner t records :
  respond w (t ++ [Call (search_for_deposition_call title owner)])
    (GET_search (search_query title owner))
  = Http_response 200 (Some (Json_list records)) ->
  filter_depositions title owner records <> [] ->
  (exists best,
      latest_first dep_publication_date (filter_depositions title owner records) best
      /\ search_for_deposition w title owner t
         = (t ++ [Call (search_for_deposition_call title owner);
                  Http (GET_search (search_query title owner))],
            Return (Some (handle_of best))))
  /\ (forall w' t' records',
        respond w' (t' ++ [Call (search_for_deposition_call title owner)])
          (GET_search (search_query title owner))
        = Http_response 200 (Some (Json_list records')) ->
        Permutation records records' ->
        NoDup (map dep_publication_date (filter_depositions title owner records)) ->
        snd (search_for_deposition w' title owner t')
        = snd (search_for_deposition w title owner t)).
Proof.
  intros H Hne.
  destruct (search_Some w title owner t records H Hne) as (best & Hbest & E).
  split; [eauto |].
  intros w' t' records' H' Hp Hnd.
  pose proof (filter_perm (matches title owner) _ _ Hp) as Hpf.
  fold (filter_depositions title owner records) in Hpf.
  fold (filter_depositions title owner records') in Hpf.
  assert (Hne' : filter_depositions title owner records' <> []).
  { intros E'. rewrite E' in Hpf. symmetry in Hpf. apply Permutation_nil in Hpf. now rewrite Hpf in Hne. }
  destruct (search_Some w' title owner t' records' H' Hne') as (best' & Hbest' & E').
  rewrite E, E'. simpl.
  now rewrite (latest_first_unique dep_publication_date _ _ _ _ Hpf Hnd Hbest Hbest').
Qed.

Lemma resolver_selects_latest_publication_witness :
  let records := [Scenario.older; Scenario.same_owner; Scenario.newer;
                  Scenario.unrelated] in
  let w := Scenario.world (Scenario.plain
             (Http_response 200 (Some (Json_list records))) 200) in
  let w' := Scenario.world (Scenario.plain
              (Http_response 200 (Some (Json_list (rev records)))) 200) in
  filter_depositions "env" (Some "42") records
  = [Scenario.older; Scenario.same_owner; Scenario.newer]
  /\ search_for_deposition w "env" (Some "42") []
     = ([Call (search_for_deposition_call "env" (Some "42"));
         Http (GET_search (search_query "env" (Some "42")))],
        Return (Some (handle_of Scenario.newer)))
  /\ snd (search_for_deposition w' "env" (Some "42") [])
     = snd (search_for_deposition w "env" (Some "42") []).
Proof.
  intros records w w'.
  destruct (resolver_selects_latest_publication w "env" (Some "42") [] records)
    as [(best & _ & E) Horder].
  - reflexivity.
  - vm_compute. discriminate.
  - split; [reflexivity |]. split; [reflexivity |].
    apply (Horder w' [] (rev records)).
    + reflexivity.
    + apply Permutation_rev.
    + vm_compute. repeat constructor; simpl; intuition discriminate.
Defined.

(** What the search returns for a 200 answer that is a list of records: the
    first of the sorted candidates, or nothing when there is none. *)
Lemma search_list_result w title owner t records :
  respond w (t ++ [Call (search_for_deposition_call title owner)])
    (GET_search (search_query title owner))
  = Http_response 200 (Some (Json_list records)) ->
  snd (search_for_deposition w title owner t)
  = Return (option_map handle_of
              (hd_error (sorted_reverse dep_publication_date
                           (filter_depositions title owner records)))).
Proof.
  intros H.
  unfold search_for_deposition, bind, emit, try_except, requests.
  rewrite H. simpl. destruct records as [| x records]; [reflexivity |].
  destruct (filter_depositions title owner (x :: records)) as [| d l] eqn:Hf;
    [reflexivity |].
  destruct (sorted_reverse_head dep_publication_date (d :: l))
    as (best & rest & Hs & _); [discriminate |].
  now rewrite Hs.
Qed.

Lemma sorted_reverse_nil {A} (key : A -> string) l :
  sorted_reverse key l = [] <-> l = [].
Proof.
  split; intros H.
  - pose proof (sorted_reverse_perm key l) as Hp. rewrite H in Hp.
    symmetry in Hp. now apply Permutation_nil in Hp.
  - now subst.
Qed.

Lemma filter_depositions_nil title owner records :
  filter_depositions title owner records = []
  <-> forall d, In d records ->
                dep_title d <> title /\ dep_owner d <> of_optional owner.
Proof.
  unfold filter_depositions. split.
  - intros Hf d Hin.
    assert (Hm : matches title owner d = false).
    { destruct (matches title owner d) eqn:Hm; [| reflexivity].
      assert (Hd : In d (filter (matches title owner) records))
        by (apply filter_In; auto).
      rewrite Hf in Hd. now elim Hd. }
    split; intros Habs;
      [assert (matches title owner d = true) by (apply matches_iff; now left)
      | assert (matches title owner d = true) by (apply matches_iff; now right)];
      congruence.
  - intros H. destruct (filter (matches title owner) records) as [| d l] eqn:Hf;
      [reflexivity |].
    assert (Hd : In d (filter (matches title owner) records))
      by (rewrite Hf; now left).
    apply filter_In in Hd as [Hin Hm]. apply matches_iff in Hm.
    destruct (H d Hin) as [Ht Ho]. destruct Hm; contradiction.
Qed.

(** C4: the Resolver's filter is an inclusive OR.  For a 200 answer with a
    list of records, the candidates the Resolver chooses among are exactly
    the records whose title equals the title searched for or whose owner
    equals the given owner, and what it returns is the first of these
    candidates sorted by date; so a record with either match makes the
    search succeed, the deposition returned always has one of the two
    matches, and the search returns nothing exactly when every record has
    neither. *)
Theorem resolver_filter_is_inclusive_or w title owner t records :
  respond w (t ++ [Call (search_for_deposition_call title owner)])
    (GET_search (search_query title owner))
  = Http_response 200 (Some (Json_list records)) ->
  (forall d,
      matches title owner d = true
      <-> dep_title d = title \/ dep_owner d = of_optional owner)
  /\ (forall d,
        In d (filter_depositions title owner records)
        <-> In d records /\ (dep_title d = title \/ dep_owner d = of_optional owner))
  /\ snd (search_for_deposition w title owner t)
     = Return (option_map handle_of
                 (hd_error (sorted_reverse dep_publication_date
                              (filter_depositions title owner records))))
  /\ (forall d,
        In d records ->
        dep_title d = title \/ dep_owner d = of_optional owner ->
        exists h, snd (search_for_deposition w title owner t) = Return (Some h))
  /\ (forall h,
        snd (search_for_deposition w title owner t) = Return (Some h) ->
        exists d,
          In d records
          /\ (dep_title d = title \/ dep_owner d = of_optional owner)
          /\ h = handle_of d)
  /\ (snd (search_for_deposition w title owner t) = Return None
      <-> forall d, In d records ->
                    dep_title d <> title /\ dep_owner d <> of_optional owner).
Proof.
  intros H.
  assert (Hin : forall d,
             In d (filter_depositions title owner records)
             <-> In d records
                 /\ (dep_title d = title \/ dep_owner d = of_optional owner)).
  { intros d. unfold filter_depositions. now rewrite filter_In, matches_iff. }
  pose proof (search_list_result w title owner t records H) as Hresult.
  split; [apply matches_iff |]. split; [exact Hin |]. split; [exact Hresult |].
  rewrite Hresult.
  destruct (sorted_reverse dep_publication_date
              (filter_depositions title owner records)) as [| best rest] eqn:Hs.
  - apply sorted_reverse_nil in Hs. cbn [hd_error option_map].
    split; [| split].
    + intros d Hd Hm. assert (Habs : In d (filter_depositions title owner records))
        by (apply Hin; auto).
      rewrite Hs in Habs. now elim Habs.
    + discriminate.
    + split; [intros _; now apply filter_depositions_nil | reflexivity].
  - cbn [hd_error option_map]. split; [eauto |]. split.
    + intros h Hh. inversion Hh; subst. exists best.
      assert (Hb : In best (filter_depositions title owner records)).
      { eapply Permutation_in;
          [symmetry; apply (sorted_reverse_perm dep_publication_date) |].
        rewrite Hs. now left. }
      apply Hin in Hb as [Hb Hm]. auto.
    + split; [discriminate |]. intros Hnone.
      apply filter_depositions_nil in Hnone. rewrite Hnone in Hs. discriminate.
Qed.

Lemma resolver_filter_is_inclusive_or_witness :
  let answering d :=
    Scenario.world
      (Scenario.plain (Http_response 200 (Some (Json_list [d]))) 200) in
  (dep_title Scenario.older = "env"
   /\ dep_owner Scenario.older <> of_optional (Some "42")
   /\ snd (search_for_deposition (answering Scenario.older) "env" (Some "42") [])
      = Return (Some (handle_of Scenario.older)))
  /\ (dep_title Scenario.same_owner <> "env"
      /\ dep_owner Scenario.same_owner = of_optional (Some "42")
      /\ snd (search_for_deposition (answering Scenario.same_owner) "env" (Some "42") [])
         = Return (Some (handle_of Scenario.same_owner)))
  /\ (dep_title Scenario.unrelated <> "env"
      /\ dep_owner Scenario.unrelated <> of_optional (Some "42")
      /\ snd (search_for_deposition (answering Scenario.unrelated) "env" (Some "42") [])
         = Return None).
Proof.
  intros answering. split; [| split].
  - split; [reflexivity |]. split; [discriminate |].
    destruct (resolver_filter_is_inclusive_or (answering Scenario.older) "env"
                (Some "42") [] [Scenario.older]) as (_ & _ & Hresult & _).
    + reflexivity.
    + exact Hresult.
  - split; [discriminate |]. split; [reflexivity |].
    destruct (resolver_filter_is_inclusive_or (answering Scenario.same_owner) "env"
                (Some "42") [] [Scenario.same_owner]) as (_ & _ & Hresult & _).
    + reflexivity.
    + exact Hresult.
  - split; [discriminate |]. split; [discriminate |].
    destruct (resolver_filter_is_inclusive_or (answering Scenario.unrelated) "env"
                (Some "42") [] [Scenario.unrelated]) as (_ & _ & _ & _ & _ & Hnone).
    + reflexivity.
    + apply Hnone. intros d [<- | []]. split; discriminate.
Defined.

(** C8: the query the Resolver sends is the search string with every slash
    replaced by a space, so no slash reaches the service. *)
Theorem search_query_replaces_slashes w title owner t :
  search_query title owner = PyStr.map_chars slash_to_space (search_string title owner)
  /\ PyStr.contains_char "/" (search_query title owner) = false
  /\ fst (search_for_deposition w title owner t)
     = t ++ [Call (search_for_deposition_call title owner);
             Http (GET_search
                     (PyStr.map_chars slash_to_space (search_string title owner)))].
Proof.
  assert (E : search_query title owner
              = PyStr.map_chars slash_to_space (search_string title owner))
    by apply replace_slash.
  split; [exact E |]. split.
  - rewrite E. apply no_slash_left.
  - rewrite <- E. apply search_trace.
Qed.

(** ** The run up to the choice of a branch *)
Section Main.
Variable w : World.

Lemma main_after_search a c found :
  ready w a c ->
  resolved w a c = Return found ->
  main w a []
  = match found with
    | Some h =>
        if not_deposition_id found then upload_to_new_deposition w a c
        else upload_new_versions w a c h
    | None => upload_to_new_deposition w a c
    end (search_events w a c).
Proof.
  intros (Htoken & Howner & Hfile & Hconfig) Hfound.
  unfold main. rewrite Htoken, Howner, Hfile. cbn [negb].
  unfold bind at 1. cbn [emit]. rewrite Hconfig.
  assert (E : search_for_deposition w (metadata_title (zenodo_metadata c))
                (ZENODO_OWNER_ID a) [Open (os_path_abspath w (config_file a))]
              = (search_events w a c, Return found)).
  { rewrite (surjective_pairing (search_for_deposition _ _ _ _)).
    unfold resolved in Hfound. rewrite Hfound, search_trace. reflexivity. }
  cbn [app]. now rewrite (bind_Return _ _ _ _ _ E).
Qed.

Lemma main_search_raises a c e :
  ready w a c ->
  resolved w a c = Raise e ->
  main w a [] = (search_events w a c, Raise e).
Proof.
  intros (Htoken & Howner & Hfile & Hconfig) Hfound.
  unfold main. rewrite Htoken, Howner, Hfile. cbn [negb].
  unfold bind at 1. cbn [emit]. rewrite Hconfig.
  assert (E : search_for_deposition w (metadata_title (zenodo_metadata c))
                (ZENODO_OWNER_ID a) [Open (os_path_abspath w (config_file a))]
              = (search_events w a c, Raise e)).
  { rewrite (surjective_pairing (search_for_deposition _ _ _ _)).
    unfold resolved in Hfound. rewrite Hfound, search_trace. reflexivity. }
  cbn [app]. now rewrite (bind_Raise _ _ _ _ _ E).
Qed.

Lemma upload_to_zenodo_emits (P : event -> Prop) deposition_id filename bucket_url
    file_url filebase env :
  P (Call (upload_to_zenodo_call deposition_id filename bucket_url file_url
             filebase env)) ->
  (forall e, is_effect e = true -> P e) ->
  emits_only P
    (upload_to_zenodo w deposition_id filename bucket_url file_url filebase env).
Proof.
  intros Hcall Heff. unfold upload_to_zenodo.
  repeat (emits_step; auto).
Qed.

Lemma add_meta_data_emits (P : event -> Prop) deposition_id m :
  P (Call (add_meta_data_call deposition_id m)) ->
  P (Http (PUT_metadata deposition_id m)) ->
  emits_only P (add_meta_data w deposition_id m).
Proof. intros. unfold add_meta_data. repeat (emits_step; auto). Qed.

Lemma publish_file_emits (P : event -> Prop) deposition_id :
  P (Call (publish_file_call deposition_id)) ->
  P (Http (POST_publish deposition_id)) ->
  emits_only P (publish_file w deposition_id).
Proof. intros. unfold publish_file. repeat (emits_step; auto). Qed.

(** The creation path starts with [create_new_deposition] and never opens
    a new version. *)
Lemma creation_path a c t t' r :
  upload_to_new_deposition w a c t = (t', r) ->
  exists rest,
    t' = t ++ Call create_new_deposition_call :: rest
    /\ Forall (fun e => is_new_version_call e = false) rest.
Proof.
  unfold upload_to_new_deposition, create_new_deposition.
  rewrite bind_emit_assoc. apply emits_first_then.
  repeat (emits_step; auto).
  - apply upload_to_zenodo_emits; [reflexivity | now intros []].
  - now apply add_meta_data_emits.
  - now apply publish_file_emits.
Qed.

End Main.

(** C5: when the query fails (no response, or a status other than 200),
    returns no results, or no result passes the filter, the Resolver returns
    the triple of [None]s without raising; the run then goes down the
    creation path: [create_new_deposition] is the next call and no new
    version is ever opened. *)
Theorem failed_lookup_takes_creation_path w :
  (forall title owner t,
      lookup_fails title owner
        (respond w (t ++ [Call (search_for_deposition_call title owner)])
           (GET_search (search_query title owner))) ->
      search_for_deposition w title owner t
      = (t ++ [Call (search_for_deposition_call title owner);
               Http (GET_search (search_query title owner))],
         Return None))
  /\ (forall a c,
        ready w a c ->
        lookup_fails (metadata_title (zenodo_metadata c)) (ZENODO_OWNER_ID a)
          (respond w
             [Open (os_path_abspath w (config_file a));
              Call (search_for_deposition_call (metadata_title (zenodo_metadata c))
                      (ZENODO_OWNER_ID a))]
             (GET_search (search_query (metadata_title (zenodo_metadata c))
                            (ZENODO_OWNER_ID a)))) ->
        exists rest r,
          main w a []
          = (search_events w a c ++ Call create_new_deposition_call :: rest, r)
          /\ Forall (fun e => is_new_version_call e = false) rest).
Proof.
  split; [intros; now apply search_None |].
  intros a c Hready Hfail.
  assert (Hnone : resolved w a c = Return None).
  { unfold resolved. now rewrite search_None. }
  rewrite (main_after_search w a c None Hready Hnone).
  destruct (upload_to_new_deposition w a c (search_events w a c)) as [t' r] eqn:E.
  apply creation_path in E as (rest & -> & Hrest). eauto.
Qed.

Lemma failed_lookup_takes_creation_path_witness :
  let w := Scenario.world (Scenario.plain Transport_error 200) in
  let a := Scenario.run_args ["dist/report.txt"] false in
  search_for_deposition w "env" (Some "42") []
  = ([Call (search_for_deposition_call "env" (Some "42"));
      Http (GET_search (search_query "env" (Some "42")))],
     Return None)
  /\ exists rest r,
       main w a []
       = (search_events w a Scenario.the_config
            ++ Call create_new_deposition_call :: rest, r)
       /\ Forall (fun e => is_new_version_call e = false) rest.
Proof.
  intros w a.
  destruct (failed_lookup_takes_creation_path w) as [Hsearch Hmain].
  split.
  - apply (Hsearch "env" (Some "42") []). apply transport_error.
  - apply (Hmain a Scenario.the_config).
    + repeat split.
    + apply transport_error.
Defined.

(** ** The Uploader: [upload_to_zenodo] *)
Section Uploader.
Variable w : World.

Lemma after_last_none sep s :
  PyStr.contains_char sep s = false -> after_last sep s = s.
Proof.
  destruct s as [| c s]; [reflexivity |]. simpl.
  intros H. apply orb_false_iff in H as [Hc Hs]. now rewrite Hs, Hc.
Qed.

Lemma split_single sep s :
  PyStr.contains_char sep s = false -> PyStr.split sep s = [s].
Proof.
  induction s as [| c s IH]; [reflexivity |]. simpl.
  intros H. apply orb_false_iff in H as [Hc Hs].
  now rewrite Hc, (IH Hs).
Qed.

Lemma split_several sep s :
  PyStr.contains_char sep s = true ->
  exists x y l, PyStr.split sep s = x :: y :: l.
Proof.
  induction s as [| c s IH]; [discriminate |]. simpl.
  destruct (Ascii.eqb c sep) eqn:Hc; simpl; intros H.
  - destruct (PyStr.split sep s) as [| y l] eqn:E.
    + destruct s; simpl in E; [discriminate |].
      destruct (Ascii.eqb a sep); [discriminate |].
      destruct (PyStr.split sep s); discriminate.
    + eauto.
  - destruct (IH H) as (x & y & l & ->). eauto.
Qed.

(** The last item of the split is what follows the last separator. *)
Lemma last_split_after_last sep s :
  PyStr.last_item (PyStr.split sep s) = after_last sep s.
Proof.
  unfold PyStr.last_item. induction s as [| c s IH]; [reflexivity |].
  cbn [PyStr.split after_last].
  destruct (PyStr.contains_char sep s) eqn:Hs.
  - destruct (split_several sep s Hs) as (x & y & l & E).
    rewrite E in *. destruct (Ascii.eqb c sep); exact IH.
  - rewrite (split_single sep s Hs) in *.
    destruct (Ascii.eqb c sep); reflexivity.
Qed.

Lemma existsb_eqb_In x l : existsb (String.eqb x) l = true <-> In x l.
Proof.
  rewrite existsb_exists. split.
  - intros (y & Hy & E). apply String.eqb_eq in E. now subst.
  - intros H. exists x. split; [exact H | apply String.eqb_refl].
Qed.

End Uploader.

(** C2: for a file named [*.tar.gz], when the deposition's file list is
    fetched and the checksum file is read, the upload is skipped (no PUT is
    made and the call returns) if the checksum read from the checksum file
    is among the stored checksums.  The checksum read is what follows the
    last [=] in the file with the surrounding white space stripped; when
    the stored checksums carry no surrounding white space, as checksums do,
    the same holds for the text after the last [=] as it stands. *)
Theorem archive_with_stored_checksum_is_skipped
    w deposition_id filename bucket_url file_url filebase env t status_code d content :
  PyStr.endswith filename ".tar.gz" = true ->
  respond w
    (t ++ [Call (upload_to_zenodo_call deposition_id filename bucket_url file_url
                   filebase env)])
    (GET_deposition deposition_id)
  = Http_response status_code (Some (Json_object d)) ->
  is_http_error status_code = false ->
  read_file w (md5sum_file filename env) = Some content ->
  In (PyStr.strip (after_last "=" content)) (map file_checksum (dep_files d))
  \/ (In (after_last "=" content) (map file_checksum (dep_files d))
      /\ Forall (fun checksum => PyStr.strip checksum = checksum)
           (map file_checksum (dep_files d))) ->
  upload_to_zenodo w deposition_id filename bucket_url file_url filebase env t
  = (t ++ [Call (upload_to_zenodo_call deposition_id filename bucket_url file_url
                   filebase env);
           Http (GET_deposition deposition_id);
           Open (md5sum_file filename env)],
     Return tt).
Proof.
  intros Harchive Hget Hstatus Hread Hstored.
  assert (Hin : In (PyStr.strip (after_last "=" content))
                  (map file_checksum (dep_files d))).
  { destruct Hstored as [Hin | [Hin Hclean]]; [exact Hin |].
    rewrite Forall_forall in Hclean. now rewrite (Hclean _ Hin). }
  rewrite <- last_split_after_last in Hin.
  fold (current_file_checksum content) in Hin.
  apply existsb_eqb_In in Hin.
  unfold upload_to_zenodo, bind, emit, requests, raise_for_status, open_read.
  rewrite Harchive, Hget, Hstatus. simpl. rewrite Hread, Hin.
  unfold ret. now rewrite <- !app_assoc.
Qed.

Lemma archive_with_stored_checksum_is_skipped_witness :
  let skipped w :=
    upload_to_zenodo w 20 "dist/env.tar.gz" "https://z.org/api/files/b20"
      "https://z.org/record/20" "env.tar.gz" "env" []
    = ([Call (upload_to_zenodo_call 20 "dist/env.tar.gz" "https://z.org/api/files/b20"
                "https://z.org/record/20" "env.tar.gz" "env");
        Http (GET_deposition 20);
        Open "dist/env-md5sum.txt"],
       Return tt) in
  let bare :=
    {| Scenario.search_response := Scenario.nothing_found;
       Scenario.put_file_status := 200;
       Scenario.stored := [{| file_key := "env.tar.gz"; file_checksum := "0cc1" |}];
       Scenario.sidecar := "MD5(env.tar.gz)=0cc1" |} in
  PyStr.strip (after_last "=" Scenario.checksum_line) = "0cc1"
  /\ skipped (Scenario.world (Scenario.archive "0cc1"))
  /\ after_last "=" "MD5(env.tar.gz)=0cc1" = "0cc1"
  /\ skipped (Scenario.world bare).
Proof.
  intros skipped bare. split; [reflexivity |]. split; [| split; [reflexivity |]].
  - apply (archive_with_stored_checksum_is_skipped
             (Scenario.world (Scenario.archive "0cc1")) 20 "dist/env.tar.gz"
             "https://z.org/api/files/b20" "https://z.org/record/20" "env.tar.gz"
             "env" [] 200 (Scenario.blank (Scenario.archive "0cc1"))
             Scenario.checksum_line).
    + reflexivity.
    + reflexivity.
    + reflexivity.
    + reflexivity.
    + left. simpl. left. reflexivity.
  - apply (archive_with_stored_checksum_is_skipped
             (Scenario.world bare) 20 "dist/env.tar.gz"
             "https://z.org/api/files/b20" "https://z.org/record/20" "env.tar.gz"
             "env" [] 200 (Scenario.blank bare) "MD5(env.tar.gz)=0cc1").
    + reflexivity.
    + reflexivity.
    + reflexivity.
    + reflexivity.
    + right. split; [simpl; left; reflexivity |].
      repeat constructor.
Defined.

(** C7: a file whose name does not end in [.tar.gz] is uploaded without any
    check: the call opens the file and PUTs it, and does nothing else; the
    deposition's file list is not fetched and no checksum file is read,
    whatever the file system holds beside the file. *)
Theorem non_archive_upload_is_unconditional
    w deposition_id filename bucket_url file_url filebase env t data :
  PyStr.endswith filename ".tar.gz" = false ->
  read_file w filename = Some data ->
  upload_to_zenodo w deposition_id filename bucket_url file_url filebase env t
  = (t ++ [Call (upload_to_zenodo_call deposition_id filename bucket_url file_url
                   filebase env);
           Open filename;
           Http (PUT_file bucket_url filebase data)],
     match respond w
             (t ++ [Call (upload_to_zenodo_call deposition_id filename bucket_url
                            file_url filebase env);
                    Open filename])
             (PUT_file bucket_url filebase data) with
     | Transport_error => Raise ConnectionError
     | Http_response status_code _ =>
         if is_http_error status_code then Raise (HTTPError status_code)
         else Return tt
     end).
Proof.
  intros Hname Hread.
  unfold upload_to_zenodo, bind, emit, requests, raise_for_status, open_read.
  rewrite Hname. simpl. rewrite Hread. rewrite <- !app_assoc. simpl.
  destruct (respond w _ _) as [| status_code b]; [reflexivity |].
  now destruct (is_http_error status_code).
Qed.

Lemma non_archive_upload_is_unconditional_witness :
  let w := Scenario.world (Scenario.archive "0cc1") in
  upload_to_zenodo w 20 "dist/env-md5sum.txt" "https://z.org/api/files/b20"
    "https://z.org/record/20" "env-md5sum.txt" "env" []
  = ([Call (upload_to_zenodo_call 20 "dist/env-md5sum.txt"
              "https://z.org/api/files/b20" "https://z.org/record/20"
              "env-md5sum.txt" "env");
      Open "dist/env-md5sum.txt";
      Http (PUT_file "https://z.org/api/files/b20" "env-md5sum.txt"
              Scenario.checksum_line)],
     Return tt).
Proof.
  intros w.
  apply (non_archive_upload_is_unconditional w 20 "dist/env-md5sum.txt"
           "https://z.org/api/files/b20" "https://z.org/record/20" "env-md5sum.txt"
           "env" [] Scenario.checksum_line).
  - reflexivity.
  - reflexivity.
Defined.

(** ** The existing-deposition branch *)
Section Versioning.
Variable w : World.

Lemma pick_app {X} (f : event -> option X) t1 t2 :
  pick f (t1 ++ t2) = pick f t1 ++ pick f t2.
Proof.
  induction t1 as [| e t1 IH]; [reflexivity |].
  simpl. rewrite IH. now destruct (f e).
Qed.

Lemma pick_none {X} (f : event -> option X) (P : event -> Prop) t :
  (forall e, P e -> f e = None) -> Forall P t -> pick f t = [].
Proof.
  intros Hf. induction 1 as [| e t He _ IH]; [reflexivity |].
  simpl. now rewrite (Hf e He).
Qed.

(** Destructs what a computation in hypothesis [E] branches on. *)
Ltac run_cases E :=
  repeat match type of E with
         | context [match ?x with _ => _ end] =>
             lazymatch x with
             | context [match _ with _ => _ end] => fail
             | _ => destruct x eqn:?; simpl in E
             end
         end;
  try discriminate E.

Lemma create_new_version_Return deposition_id t t' h :
  create_new_version w deposition_id t = (t', Return h) ->
  exists new_deposition_id,
    t' = t ++ [Call (create_new_version_call deposition_id);
               Http (POST_newversion deposition_id);
               Http (GET_draft new_deposition_id);
               Created h].
Proof.
  unfold create_new_version, bind, emit, requests, raise_for_status,
    response_json, as_object, created, ret, raise.
  intros E. run_cases E. inversion E; subst.
  eexists. rewrite <- !app_assoc. reflexivity.
Qed.

Lemma upload_to_zenodo_shape deposition_id filename bucket_url file_url filebase
    env t t' r :
  upload_to_zenodo w deposition_id filename bucket_url file_url filebase env t
  = (t', r) ->
  exists effects,
    t' = t ++ Call (upload_to_zenodo_call deposition_id filename bucket_url file_url
                      filebase env) :: effects
    /\ Forall (fun e => is_effect e = true) effects.
Proof.
  unfold upload_to_zenodo. apply emits_first_then.
  repeat (emits_step; auto).
Qed.

Lemma publish_file_trace deposition_id t :
  fst (publish_file w deposition_id t)
  = t ++ [Call (publish_file_call deposition_id); Http (POST_publish deposition_id)].
Proof.
  unfold publish_file, bind, emit, requests, raise_for_status, ret, raise.
  destruct (respond w _ _) as [| status_code b]; simpl;
    try destruct (is_http_error status_code); simpl; now rewrite <- app_assoc.
Qed.

(** A loop that completes leaves the log of its passes. *)
Lemma passes_shape c files :
  forall h t t' h',
    for_each_with files h (new_version_pass w c) t = (t', Return h') ->
    exists new, t' = t ++ new /\ version_passes w (env_name c) h files new h'.
Proof.
  induction files as [| file files IH]; intros h t t' h' E.
  - inversion E; subst. exists []. rewrite app_nil_r. split; constructor.
  - cbn [for_each_with] in E.
    apply bind_inv in E as [(t1 & h1 & E1 & E2) | (e & _ & Habs)]; [| discriminate].
    apply IH in E2 as (rest & -> & Hrest).
    unfold new_version_pass in E1. destruct h as [[deposition_id bucket_url] file_url].
    destruct (os_path_isfile w (os_path_abspath w file)); [| discriminate].
    cbn [negb] in E1.
    apply bind_inv in E1 as [(t2 & h2 & E1 & E3) | (e & _ & Habs)]; [| discriminate].
    destruct h2 as [[id2 bucket2] url2].
    apply bind_inv in E3 as [(t3 & [] & E3 & E4) | (e & _ & Habs)]; [| discriminate].
    inversion E4; subst.
    apply create_new_version_Return in E1 as (name & ->).
    apply upload_to_zenodo_shape in E3 as (effects & -> & Heffects).
    exists ([Call (create_new_version_call deposition_id);
             Http (POST_newversion deposition_id);
             Http (GET_draft name);
             Created (id2, bucket2, url2);
             Call (upload_to_zenodo_call id2 file bucket2 url2
                     (PyStr.basename (os_path_abspath w file)) (env_name c))]
            ++ effects ++ rest).
    split.
    + rewrite <- !app_assoc. reflexivity.
    + now apply (passes_step w (env_name c) (deposition_id, bucket_url, file_url)
                   file files name (id2, bucket2, url2)).
Qed.

(** A completed run of this branch: the search, the passes, and the
    publication when asked for. *)
Lemma versioning_run_shape a c h tr :
  ready w a c ->
  resolved w a c = Return (Some h) ->
  not_deposition_id (Some h) = false ->
  main w a [] = (tr, Return tt) ->
  exists new h',
    version_passes w (env_name c) h (files_to_upload a) new h'
    /\ tr = search_events w a c ++ new
            ++ (if publish a
                then [Call (publish_file_call (handle_id h'));
                      Http (POST_publish (handle_id h'))]
                else []).
Proof.
  intros Hready Hfound Hid E.
  rewrite (main_after_search w a c _ Hready Hfound), Hid in E.
  unfold upload_new_versions in E.
  apply bind_inv in E as [(t1 & h' & E1 & E2) | (e & _ & Habs)]; [| discriminate].
  apply passes_shape in E1 as (new & -> & Hpasses).
  exists new, h'. split; [exact Hpasses |].
  destruct h' as [[id' bucket'] url']. unfold handle_id. cbn [fst].
  destruct (publish a).
  - pose proof (publish_file_trace id' (search_events w a c ++ new)) as Ht.
    rewrite E2 in Ht. cbn [fst] in Ht. now rewrite Ht, <- app_assoc.
  - inversion E2; subst. now rewrite app_nil_r.
Qed.

Lemma effects_not_picked {X} (f : event -> option X) effects :
  (forall path, f (Open path) = None) ->
  (forall req, f (Http req) = None) ->
  Forall (fun e => is_effect e = true) effects ->
  pick f effects = [].
Proof.
  intros Hopen Hhttp. apply pick_none.
  intros [c | h | path | req]; simpl; intros H; try discriminate; auto.
Qed.

Lemma last_cons_default {X} (x d : X) l : last (x :: l) d = last l x.
Proof.
  revert x d. induction l as [| y l IH]; intros x d; [reflexivity |].
  change (last (x :: y :: l) d) with (last (y :: l) d).
  now rewrite !IH.
Qed.

(** What the log of the passes shows, projection by projection. *)
Lemma passes_projections env h files new h' :
  version_passes w env h files new h' ->
  new_version_calls new
  = firstn (List.length files) (handle_id h :: map handle_id (created_handles new))
  /\ List.length (created_handles new) = List.length files
  /\ upload_targets new = created_handles new
  /\ uploaded_files new = files
  /\ publish_calls new = []
  /\ metadata_calls new = []
  /\ h' = last (created_handles new) h.
Proof.
  induction 1 as [h0 | h0 file files0 name h1 effects rest h2 Heff _ IH].
  - repeat split.
  - destruct IH as (Hcalls & Hlen & Htargets & Hfiles & Hpublish & Hmeta & Hlast).
    unfold new_version_calls, created_handles, upload_targets, uploaded_files,
      publish_calls, metadata_calls in *.
    rewrite !pick_app, !(effects_not_picked _ effects) by auto.
    cbn [pick app List.length firstn map].
    destruct h1 as [[id1 bucket1] url1]. cbn [fst snd handle_id] in *.
    repeat split; try congruence.
    + now rewrite Htargets.
    + now rewrite last_cons_default.
Qed.

End Versioning.

(** C1: in a completed run whose search found a deposition,
    [create_new_version] is called once per file; each file is uploaded
    into the draft that the call just before it returned; and with
    [--publish], [publish_file] is called once, as the last thing the run
    does. *)
Theorem each_file_gets_its_own_new_version w a c h tr :
  ready w a c ->
  resolved w a c = Return (Some h) ->
  not_deposition_id (Some h) = false ->
  main w a [] = (tr, Return tt) ->
  exists new h',
    version_passes w (env_name c) h (files_to_upload a) new h'
    /\ tr = search_events w a c ++ new
            ++ (if publish a
                then [Call (publish_file_call (handle_id h'));
                      Http (POST_publish (handle_id h'))]
                else [])
    /\ List.length (new_version_calls tr) = List.length (files_to_upload a)
    /\ uploaded_files tr = files_to_upload a
    /\ upload_targets tr = created_handles tr
    /\ publish_calls tr = (if publish a then [handle_id h'] else []).
Proof.
  intros Hready Hfound Hid E.
  destruct (versioning_run_shape w a c h tr Hready Hfound Hid E)
    as (new & h' & Hpasses & ->).
  exists new, h'. split; [exact Hpasses |]. split; [reflexivity |].
  destruct (passes_projections w _ _ _ _ _ Hpasses)
    as (Hcalls & Hlen & Htargets & Hfiles & Hpublish & _ & _).
  unfold new_version_calls, uploaded_files, upload_targets, created_handles,
    publish_calls in *.
  rewrite !pick_app. unfold search_events. cbn [pick app].
  rewrite Hcalls, Hfiles, Htargets, Hpublish.
  assert (Hn : List.length
                 (firstn (List.length (files_to_upload a))
                    (handle_id h
                     :: map handle_id
                          (pick (fun e => match e with
                                          | Created h0 => Some h0
                                          | _ => None
                                          end) new)))
               = List.length (files_to_upload a)).
  { apply firstn_length_le. cbn [List.length]. rewrite length_map, Hlen. lia. }
  destruct (publish a); cbn [pick app]; rewrite ?app_nil_r; auto.
Qed.

Lemma each_file_gets_its_own_new_version_witness :
  let w := Scenario.world (Scenario.plain Scenario.found 200) in
  let a := Scenario.run_args ["dist/report.txt"; "notes.md"] true in
  let tr := fst (main w a []) in
  new_version_calls tr = [12; 112]
  /\ exists new h',
       version_passes w "env" (handle_of Scenario.newer) (files_to_upload a) new h'
       /\ tr = search_events w a Scenario.the_config ++ new
               ++ [Call (publish_file_call (handle_id h'));
                   Http (POST_publish (handle_id h'))]
       /\ List.length (new_version_calls tr) = 2%nat
       /\ uploaded_files tr = ["dist/report.txt"; "notes.md"]
       /\ upload_targets tr = created_handles tr
       /\ publish_calls tr = [handle_id h'].
Proof.
  intros w a tr. split; [reflexivity |].
  apply (each_file_gets_its_own_new_version w a Scenario.the_config
           (handle_of Scenario.newer) tr).
  - repeat split.
  - reflexivity.
  - reflexivity.
  - reflexivity.
Defined.

(** C10: in such a run the first [create_new_version] call is made for the
    deposition the search found and every later one for the draft the pass
    before it created, the loop reassigning the identifier; the publication,
    when asked for, is of the draft of the last pass only. *)
Theorem new_versions_chain_from_previous_draft w a c h tr :
  ready w a c ->
  resolved w a c = Return (Some h) ->
  not_deposition_id (Some h) = false ->
  main w a [] = (tr, Return tt) ->
  new_version_calls tr
  = firstn (List.length (files_to_upload a))
      (handle_id h :: map handle_id (created_handles tr))
  /\ List.length (created_handles tr) = List.length (files_to_upload a)
  /\ publish_calls tr
     = (if publish a then [handle_id (last (created_handles tr) h)] else []).
Proof.
  intros Hready Hfound Hid E.
  destruct (versioning_run_shape w a c h tr Hready Hfound Hid E)
    as (new & h' & Hpasses & ->).
  destruct (passes_projections w _ _ _ _ _ Hpasses)
    as (Hcalls & Hlen & _ & _ & Hpublish & _ & Hlast).
  unfold new_version_calls, created_handles, publish_calls in *.
  rewrite !pick_app. unfold search_events. cbn [pick app].
  rewrite Hcalls, Hpublish.
  destruct (publish a); cbn [pick app]; rewrite ?app_nil_r, <- ?Hlast; auto.
Qed.

Lemma new_versions_chain_from_previous_draft_witness :
  let w := Scenario.world (Scenario.plain Scenario.found 200) in
  let a := Scenario.run_args ["a.txt"; "b.txt"; "c.txt"] true in
  let tr := fst (main w a []) in
  created_handles tr
  = [(112, "https://z.org/api/files/b112", "https://z.org/record/112");
     (212, "https://z.org/api/files/b212", "https://z.org/record/212");
     (312, "https://z.org/api/files/b312", "https://z.org/record/312")]
  /\ new_version_calls tr = [12; 112; 212]
  /\ List.length (created_handles tr) = 3%nat
  /\ publish_calls tr = [312].
Proof.
  intros w a tr. split; [reflexivity |].
  apply (new_versions_chain_from_previous_draft w a Scenario.the_config
           (handle_of Scenario.newer) tr).
  - repeat split.
  - reflexivity.
  - reflexivity.
  - reflexivity.
Defined.

(** ** Failures of the service *)
Section FailStop.
Variable w : World.

Lemma fail_stop_pure {A} (m : M A) :
  (forall t, fst (m t) = t) -> fail_stop w m.
Proof.
  intros H t t' r E. exists []. rewrite app_nil_r. split.
  - specialize (H t). rewrite E in H. now simpl in H.
  - intros pre req post status_code b Hsplit. now destruct pre.
Qed.

Lemma fail_stop_single {A} (m : M A) e :
  (forall req, e <> Http req) ->
  (forall t, fst (m t) = t ++ [e]) ->
  fail_stop w m.
Proof.
  intros He H t t' r E. exists [e]. split.
  - specialize (H t). rewrite E in H. now simpl in H.
  - intros pre req post status_code b Hsplit.
    destruct pre as [| x pre]; inversion Hsplit; subst.
    + now elim (He req).
    + now destruct pre.
Qed.

Lemma fail_stop_emit e : (forall req, e <> Http req) -> fail_stop w (emit e).
Proof. intros He. now apply (fail_stop_single _ e). Qed.

Lemma fail_stop_open_read path : fail_stop w (open_read w path).
Proof.
  apply (fail_stop_single _ (Open path)); [discriminate |].
  intros t. unfold open_read. now destruct (read_file w path).
Qed.

Lemma fail_stop_bind {A B} (m : M A) (k : A -> M B) :
  fail_stop w m -> (forall a, fail_stop w (k a)) -> fail_stop w (bind m k).
Proof.
  intros Hm Hk t t' r E.
  apply bind_inv in E as [(t1 & a & E1 & E2) | (e & E1 & ->)].
  - apply Hm in E1 as (n1 & -> & H1). apply Hk in E2 as (n2 & -> & H2).
    exists (n1 ++ n2). rewrite app_assoc. split; [reflexivity |].
    intros pre req post status_code b Hsplit Hfatal Hresp Herr.
    apply app_split in Hsplit as [(post1 & -> & ->) | (pre2 & -> & ->)].
    + destruct (H1 pre req post1 status_code b eq_refl Hfatal Hresp Herr) as [_ Habs].
      discriminate.
    + rewrite app_assoc in Hresp.
      exact (H2 pre2 req post status_code b eq_refl Hfatal Hresp Herr).
  - apply Hm in E1 as (n1 & -> & H1). exists n1. split; [reflexivity |].
    intros pre req post status_code b Hsplit Hfatal Hresp Herr.
    destruct (H1 pre req post status_code b Hsplit Hfatal Hresp Herr) as [-> Hr].
    inversion Hr. auto.
Qed.

(** A request followed by [raise_for_status]. *)
Lemma fail_stop_checked_request {A} req (k : Z * option json -> M A) :
  (forall status_code b, fail_stop w (k (status_code, b))) ->
  (forall status_code b t,
      is_http_error status_code = true ->
      k (status_code, b) t = (t, Raise (HTTPError status_code))) ->
  fail_stop w (bind (requests w req) k).
Proof.
  intros Hk Herror t t' r E. unfold bind, requests in E.
  destruct (respond w t req) as [| status_code b] eqn:Hrespond.
  - inversion E; subst. exists [Http req]. split; [reflexivity |].
    intros pre req' post st b' Hsplit Hfatal Hresp.
    destruct pre as [| x pre]; inversion Hsplit; subst.
    + rewrite app_nil_r in Hresp. congruence.
    + now destruct pre.
  - pose proof E as E'. apply Hk in E as (n2 & -> & H2).
    exists (Http req :: n2). rewrite <- app_assoc. split; [reflexivity |].
    intros pre req' post st b' Hsplit Hfatal Hresp Herr.
    destruct pre as [| x pre]; inversion Hsplit; subst.
    + rewrite app_nil_r in Hresp. rewrite Hrespond in Hresp.
      inversion Hresp; subst.
      rewrite (Herror st b' _ Herr) in E'. inversion E' as [[Ht Hr]].
      split; [| reflexivity]. now apply app_same_nil in Ht.
    + apply (H2 pre req' post st b' eq_refl Hfatal); [| exact Herr].
      now rewrite <- app_assoc.
Qed.

Lemma fail_stop_for_each {A} (l : list A) (f : A -> M unit) :
  (forall x, fail_stop w (f x)) -> fail_stop w (for_each l f).
Proof.
  intros H. induction l; simpl.
  - now apply fail_stop_pure.
  - apply fail_stop_bind; auto.
Qed.

Lemma fail_stop_for_each_with {S A} (l : list A) (f : S -> A -> M S) :
  (forall s x, fail_stop w (f s x)) -> forall s, fail_stop w (for_each_with l s f).
Proof.
  intros H. induction l; simpl; intros s.
  - now apply fail_stop_pure.
  - apply fail_stop_bind; auto.
Qed.

(** The failures of the search are caught; its request is not of the fatal
    kind. *)
Lemma fail_stop_search title owner : fail_stop w (search_for_deposition w title owner).
Proof.
  intros t t' r E.
  exists [Call (search_for_deposition_call title owner);
          Http (GET_search (search_query title owner))].
  split.
  - rewrite <- (search_trace w title owner t). now rewrite E.
  - intros pre req post status_code b Hsplit Hfatal.
    destruct pre as [| x [| y pre]]; inversion Hsplit; subst;
      try discriminate; now destruct pre.
Qed.

End FailStop.

(** One step of a proof that a function stops at the first error status. *)
Ltac fail_stop_step :=
  match goal with
  | |- fail_stop _ (bind (requests _ _) _) =>
      apply fail_stop_checked_request;
      [ intros
      | let H := fresh in
        intros ? ? ? H; cbn beta iota; unfold bind, raise_for_status;
        rewrite H; reflexivity ]
  | |- fail_stop _ (bind _ _) => apply fail_stop_bind; [| intros]
  | |- fail_stop _ (ret _) => now apply fail_stop_pure
  | |- fail_stop _ (raise _) => now apply fail_stop_pure
  | |- fail_stop _ (emit _) => apply fail_stop_emit; discriminate
  | |- fail_stop _ (open_read _ _) => apply fail_stop_open_read
  | |- fail_stop _ (search_for_deposition _ _ _) => apply fail_stop_search
  | |- fail_stop _ (for_each _ _) => apply fail_stop_for_each; intros
  | |- fail_stop _ (for_each_with _ _ _) => apply fail_stop_for_each_with; intros
  | |- fail_stop _ (raise_for_status ?s) =>
      unfold raise_for_status; destruct (is_http_error s)
  | |- fail_stop _ (response_json ?b) => destruct b; simpl
  | |- fail_stop _ (as_object ?j) => destruct j; simpl
  | |- fail_stop _ (created _) => unfold created
  | |- fail_stop _ (let _ := _ in _) => cbv zeta
  | |- fail_stop _ (if ?b then _ else _) => destruct b
  | |- fail_stop _ (match ?x with _ => _ end) => destruct x
  end.

Lemma fail_stop_main w a : fail_stop w (main w a).
Proof.
  unfold main, upload_to_new_deposition, upload_new_versions, new_version_pass,
    create_new_deposition, create_new_version, upload_to_zenodo, add_meta_data,
    publish_file.
  repeat fail_stop_step.
Qed.

(** C9, as amended: when the upload PUT, the metadata PUT or the publish
    POST (or any request other than the search) is answered with a status
    from 400 to 599, the run ends there: the request is the last event of
    the log, so nothing is retried and nothing follows, and the outcome of
    the run is the [HTTPError] of that status. *)
Theorem http_error_aborts_the_run w a tr r pre req post status_code b :
  main w a [] = (tr, r) ->
  tr = pre ++ Http req :: post ->
  fatal req = true ->
  respond w pre req = Http_response status_code b ->
  is_http_error status_code = true ->
  post = [] /\ r = Raise (HTTPError status_code).
Proof.
  intros E Hsplit Hfatal Hresp Herr.
  apply fail_stop_main in E as (new & -> & H).
  exact (H pre req post status_code b Hsplit Hfatal Hresp Herr).
Qed.

Lemma http_error_aborts_the_run_witness :
  let w := Scenario.world (Scenario.plain Scenario.nothing_found 500) in
  let a := Scenario.run_args ["dist/report.txt"; "notes.md"] true in
  let pre :=
    search_events w a Scenario.the_config
    ++ [Call create_new_deposition_call;
        Http POST_depositions;
        Created (20, "https://z.org/api/files/b20", "https://z.org/record/20");
        Call (upload_to_zenodo_call 20 "dist/report.txt" "https://z.org/api/files/b20"
                "https://z.org/record/20" "report.txt" "env");
        Open "dist/report.txt"] in
  let req := PUT_file "https://z.org/api/files/b20" "report.txt" "bytes" in
  main w a [] = (pre ++ [Http req], Raise (HTTPError 500)).
Proof.
  intros w a pre req.
  destruct (http_error_aborts_the_run w a (fst (main w a [])) (snd (main w a []))
              pre req [] 500 None) as [_ Hr].
  - reflexivity.
  - reflexivity.
  - reflexivity.
  - reflexivity.
  - reflexivity.
  - rewrite (surjective_pairing (main w a [])). rewrite Hr. reflexivity.
Defined.

(** C9, as stated, fails for a status that is neither 2xx nor an error of
    the 4xx or 5xx class: here the upload PUT is answered with 304 and the
    run goes on to attach the metadata and to publish. *)
Lemma not_modified_upload_is_not_fatal :
  let w := Scenario.world (Scenario.plain Scenario.nothing_found 304) in
  let a := Scenario.run_args ["dist/report.txt"] true in
  let m := {| metadata_title := "env"; metadata_rest := "{}" |} in
  let pre :=
    search_events w a Scenario.the_config
    ++ [Call create_new_deposition_call;
        Http POST_depositions;
        Created (20, "https://z.org/api/files/b20", "https://z.org/record/20");
        Call (upload_to_zenodo_call 20 "dist/report.txt" "https://z.org/api/files/b20"
                "https://z.org/record/20" "report.txt" "env");
        Open "dist/report.txt"] in
  let req := PUT_file "https://z.org/api/files/b20" "report.txt" "bytes" in
  respond w pre req = Http_response 304 None
  /\ is_2xx 304 = false
  /\ main w a []
     = (pre ++ [Http req;
                Call (add_meta_data_call 20 m);
                Http (PUT_metadata 20 m);
                Call (publish_file_call 20);
                Http (POST_publish 20)],
        Return tt).
Proof.
  repeat split.
Qed.

(** C6: the metadata is not attached in every run.  In this run of the
    existing-deposition branch a deposition is found, a new version is
    opened for the one file, the file is uploaded and the draft published,
    and [add_meta_data] is never called. *)
Theorem new_version_run_attaches_no_metadata :
  let w := Scenario.world (Scenario.plain Scenario.found 200) in
  let a := Scenario.run_args ["dist/report.txt"] true in
  main w a []
  = (search_events w a Scenario.the_config
     ++ [Call (create_new_version_call 12);
         Http (POST_newversion 12);
         Http (GET_draft "112");
         Created (112, "https://z.org/api/files/b112", "https://z.org/record/112");
         Call (upload_to_zenodo_call 112 "dist/report.txt"
                 "https://z.org/api/files/b112" "https://z.org/record/112"
                 "report.txt" "env");
         Open "dist/report.txt";
         Http (PUT_file "https://z.org/api/files/b112" "report.txt" "bytes");
         Call (publish_file_call 112);
         Http (POST_publish 112)],
     Return tt)
  /\ metadata_calls (fst (main w a [])) = []
  /\ publish_calls (fst (main w a [])) = [112].
Proof.
  repeat split.
Qed.

(** The same in every world: a completed run of that branch makes no
    [add_meta_data] call. *)
Lemma versioning_never_attaches_metadata w a c h tr :
  ready w a c ->
  resolved w a c = Return (Some h) ->
  not_deposition_id (Some h) = false ->
  main w a [] = (tr, Return tt) ->
  metadata_calls tr = [].
Proof.
  intros Hready Hfound Hid E.
  destruct (versioning_run_shape w a c h tr Hready Hfound Hid E)
    as (new & h' & Hpasses & ->).
  destruct (passes_projections w _ _ _ _ _ Hpasses)
    as (_ & _ & _ & _ & _ & Hmeta & _).
  unfold metadata_calls in *. rewrite !pick_app, Hmeta.
  now destruct (publish a).
Qed.

(** ** The creation branch *)
Section Creation.
Variable w : World.

Lemma create_new_deposition_Return t t' h :
  create_new_deposition w t = (t', Return h) ->
  t' = t ++ [Call create_new_deposition_call; Http POST_depositions; Created h].
Proof.
  unfold create_new_deposition, bind, emit, requests, raise_for_status,
    response_json, as_object, created, ret, raise.
  intros E.
  destruct (respond w _ _) as [| status_code [[records | d] |]]; simpl in E;
    try discriminate E;
    destruct (is_http_error status_code); simpl in E; try discriminate E.
  inversion E; subst. now rewrite <- !app_assoc.
Qed.

Lemma add_meta_data_trace deposition_id m t :
  fst (add_meta_data w deposition_id m t)
  = t ++ [Call (add_meta_data_call deposition_id m);
          Http (PUT_metadata deposition_id m)].
Proof.
  unfold add_meta_data, bind, emit, requests, raise_for_status, ret, raise.
  destruct (respond w _ _) as [| status_code b]; simpl;
    try destruct (is_http_error status_code); simpl; now rewrite <- app_assoc.
Qed.

Lemma creation_loop_shape c deposition_id bucket_url file_url files :
  forall t t',
    for_each files (fun file =>
      let filename := os_path_abspath w file in
      let filebase := PyStr.basename filename in
      if negb (os_path_isfile w filename) then raise (FileNotFoundError filename)
      else
        upload_to_zenodo w deposition_id file bucket_url file_url filebase (env_name c) ;;
        add_meta_data w deposition_id (zenodo_metadata c)) t
    = (t', Return tt) ->
    exists new,
      t' = t ++ new
      /\ creation_passes w (env_name c) (deposition_id, bucket_url, file_url)
           (zenodo_metadata c) files new.
Proof.
  induction files as [| file files IH]; intros t t' E.
  - inversion E; subst. exists []. rewrite app_nil_r. split; constructor.
  - cbn [for_each] in E.
    apply bind_inv in E as [(t1 & [] & E1 & E2) | (e & _ & Habs)]; [| discriminate].
    apply IH in E2 as (rest & -> & Hrest).
    cbv zeta in E1.
    destruct (os_path_isfile w (os_path_abspath w file)); [| discriminate].
    cbn [negb] in E1.
    apply bind_inv in E1 as [(t2 & [] & E1 & E3) | (e & _ & Habs)]; [| discriminate].
    apply upload_to_zenodo_shape in E1 as (effects & -> & Heffects).
    pose proof (add_meta_data_trace deposition_id (zenodo_metadata c)
                  (t ++ Call (upload_to_zenodo_call deposition_id file bucket_url
                                file_url (PyStr.basename (os_path_abspath w file))
                                (env_name c)) :: effects)) as Ht.
    rewrite E3 in Ht. cbn [fst] in Ht. subst t1.
    eexists. split.
    + rewrite <- !app_assoc. reflexivity.
    + cbn [app]. now apply (creation_step w (env_name c)
                              (deposition_id, bucket_url, file_url) (zenodo_metadata c)).
Qed.

(** A completed run of the creation branch: the search, the new deposition,
    an upload and the metadata for each file, and the publication when asked
    for. *)
Lemma creation_run_shape a c found tr :
  ready w a c ->
  resolved w a c = Return found ->
  not_deposition_id found = true ->
  main w a [] = (tr, Return tt) ->
  exists h new,
    creation_passes w (env_name c) h (zenodo_metadata c) (files_to_upload a) new
    /\ tr = search_events w a c
            ++ [Call create_new_deposition_call; Http POST_depositions; Created h]
            ++ new
            ++ (if publish a
                then [Call (publish_file_call (handle_id h));
                      Http (POST_publish (handle_id h))]
                else []).
Proof.
  intros Hready Hfound Hid E.
  rewrite (main_after_search w a c _ Hready Hfound) in E.
  assert (E' : upload_to_new_deposition w a c (search_events w a c) = (tr, Return tt)).
  { destruct found as [h |]; [now rewrite Hid in E | exact E]. }
  clear E. unfold upload_to_new_deposition in E'.
  apply bind_inv in E' as [(t1 & h & E1 & E2) | (e & _ & Habs)]; [| discriminate].
  apply create_new_deposition_Return in E1 as ->.
  destruct h as [[deposition_id bucket_url] file_url].
  apply bind_inv in E2 as [(t2 & [] & E2 & E3) | (e & _ & Habs)]; [| discriminate].
  apply creation_loop_shape in E2 as (new & -> & Hnew).
  exists (deposition_id, bucket_url, file_url), new. split; [exact Hnew |].
  unfold handle_id. cbn [fst].
  destruct (publish a).
  - pose proof (publish_file_trace w deposition_id
                  ((search_events w a c
                    ++ [Call create_new_deposition_call; Http POST_depositions;
                        Created (deposition_id, bucket_url, file_url)]) ++ new)) as Ht.
    rewrite E3 in Ht. cbn [fst] in Ht. now rewrite Ht, <- !app_assoc.
  - inversion E3; subst. now rewrite app_nil_r.
Qed.

Lemma creation_projections env h m files new :
  creation_passes w env h m files new ->
  uploaded_files new = files
  /\ upload_targets new = map (fun _ => h) files
  /\ metadata_calls new = map (fun _ => handle_id h) files
  /\ publish_calls new = []
  /\ new_version_calls new = []
  /\ new_deposition_calls new = [].
Proof.
  induction 1 as [| file files0 effects rest Heff _ IH].
  - repeat split.
  - destruct IH as (Hfiles & Htargets & Hmeta & Hpublish & Hversions & Hnew).
    unfold uploaded_files, upload_targets, metadata_calls, publish_calls,
      new_version_calls, new_deposition_calls in *.
    cbn [pick]. rewrite !pick_app, !(effects_not_picked _ effects) by auto.
    cbn [pick app map].
    destruct h as [[deposition_id bucket_url] file_url]. cbn [fst snd handle_id] in *.
    repeat split; try congruence. now rewrite Htargets.
Qed.

(** The part of C6 that holds: when no deposition is found and one file is
    given without [--publish], a completed run calls
    [create_new_deposition] once, uploads once, attaches the metadata once,
    after the upload, and never publishes. *)
Lemma creation_run_one_file a c found file tr :
  ready w a c ->
  resolved w a c = Return found ->
  not_deposition_id found = true ->
  files_to_upload a = [file] ->
  publish a = false ->
  main w a [] = (tr, Return tt) ->
  exists h effects,
    Forall (fun e => is_effect e = true) effects
    /\ tr = search_events w a c
            ++ [Call create_new_deposition_call; Http POST_depositions; Created h;
                Call (upload_to_zenodo_call (handle_id h) file (snd (fst h)) (snd h)
                        (PyStr.basename (os_path_abspath w file)) (env_name c))]
            ++ effects
            ++ [Call (add_meta_data_call (handle_id h) (zenodo_metadata c));
                Http (PUT_metadata (handle_id h) (zenodo_metadata c))]
    /\ new_deposition_calls tr = [tt]
    /\ uploaded_files tr = [file]
    /\ metadata_calls tr = [handle_id h]
    /\ publish_calls tr = [].
Proof.
  intros Hready Hfound Hid Hfiles Hpublish E.
  destruct (creation_run_shape a c found tr Hready Hfound Hid E)
    as (h & new & Hpasses & ->).
  rewrite Hfiles in Hpasses. rewrite Hpublish, app_nil_r.
  destruct (creation_projections _ _ _ _ _ Hpasses)
    as (Hup & _ & Hmeta & Hpub & _ & Hnew).
  inversion Hpasses as [| f fs effects rest Heff Hrest]; subst.
  inversion Hrest; subst.
  exists h, effects. split; [exact Heff |]. split; [reflexivity |].
  unfold new_deposition_calls, uploaded_files, metadata_calls, publish_calls in *.
  rewrite !pick_app, Hup, Hmeta, Hpub, Hnew. repeat split.
Qed.

End Creation.

(** * Further properties of the script *)

(** ** The stages of a run *)
Section Stages.
Variable w : World.

Lemma main_stage a tr r : main w a [] = (tr, r) -> run_stage w a tr r.
Proof.
  intros E.
  destruct (truthy (ZENODO_ACCESS_TOKEN a)) eqn:Htoken.
  2: { unfold main in E. rewrite Htoken in E. inversion E; subst.
       eapply stopped_at_configuration; eauto.
       intros c (H & _). congruence. }
  destruct (truthy (ZENODO_OWNER_ID a)) eqn:Howner.
  2: { unfold main in E. rewrite Htoken, Howner in E. inversion E; subst.
       eapply stopped_at_configuration; eauto.
       intros c (_ & H & _). congruence. }
  destruct (os_path_isfile w (os_path_abspath w (config_file a))) eqn:Hfile.
  2: { unfold main in E. rewrite Htoken, Howner, Hfile in E. inversion E; subst.
       eapply stopped_at_configuration; eauto.
       intros c (_ & _ & H & _). congruence. }
  destruct (load_config w (os_path_abspath w (config_file a))) as [c |] eqn:Hconfig.
  2: { unfold main in E. rewrite Htoken, Howner, Hfile in E.
       cbn [negb] in E. unfold bind at 1 in E. cbn [emit] in E.
       rewrite Hconfig in E. inversion E; subst.
       eapply stopped_at_configuration; eauto.
       intros c (_ & _ & _ & H). congruence. }
  assert (Hready : ready w a c) by (repeat split; assumption).
  destruct (resolved w a c) as [found | e] eqn:Hfound.
  - rewrite (main_after_search w a c found Hready Hfound) in E.
    destruct found as [h |].
    + destruct (not_deposition_id (Some h)) eqn:Hid.
      * now apply (creation_branch w a tr r c (Some h)).
      * now apply (versioning_branch w a tr r c h).
    + now apply (creation_branch w a tr r c None).
  - rewrite (main_search_raises w a c e Hready Hfound) in E.
    inversion E; subst. now apply (stopped_at_search w a _ _ c e).
Qed.

Lemma ready_unique a c c' : ready w a c -> ready w a c' -> c = c'.
Proof. intros (_ & _ & _ & H) (_ & _ & _ & H'). congruence. Qed.

Lemma emits_only_for_each_In (P : event -> Prop) {A} (l : list A) (f : A -> M unit) :
  (forall x, In x l -> emits_only P (f x)) -> emits_only P (for_each l f).
Proof.
  induction l as [| x l IH]; simpl; intros H.
  - apply emits_only_ret.
  - apply emits_only_bind; [apply H; now left |].
    intros _. apply IH. intros y Hy. apply H. now right.
Qed.

Lemma emits_only_for_each_with_In (P : event -> Prop) {S A} (l : list A)
    (f : S -> A -> M S) :
  (forall s x, In x l -> emits_only P (f s x)) ->
  forall s, emits_only P (for_each_with l s f).
Proof.
  induction l as [| x l IH]; simpl; intros H s.
  - apply emits_only_ret.
  - apply emits_only_bind; [apply H; now left |].
    intros s'. apply IH. intros s0 y Hy. apply H. now right.
Qed.

Lemma create_new_version_emits (P : event -> Prop) deposition_id :
  (forall e, match e with Call (upload_to_zenodo_call _ _ _ _ _ _) => False
                     | Call (publish_file_call _) | Http (POST_publish _) => False
                     | _ => True end -> P e) ->
  emits_only P (create_new_version w deposition_id).
Proof.
  intros H. unfold create_new_version.
  repeat (emits_step; try (apply H; exact I)).
Qed.

Lemma create_new_deposition_emits (P : event -> Prop) :
  (forall e, match e with Call (upload_to_zenodo_call _ _ _ _ _ _) => False
                     | Call (publish_file_call _) | Http (POST_publish _) => False
                     | _ => True end -> P e) ->
  emits_only P (create_new_deposition w).
Proof.
  intros H. unfold create_new_deposition.
  repeat (emits_step; try (apply H; exact I)).
Qed.

(** The loop of the creation branch, as [upload_to_new_deposition] runs
    it. *)
Lemma creation_loop_emits (P : event -> Prop) a c deposition_id bucket_url file_url :
  (forall file,
      In file (files_to_upload a) ->
      os_path_isfile w (os_path_abspath w file) = true ->
      P (Call (upload_to_zenodo_call deposition_id file bucket_url file_url
                 (PyStr.basename (os_path_abspath w file)) (env_name c)))) ->
  (forall e, is_effect e = true -> not_publish e -> P e) ->
  P (Call (add_meta_data_call deposition_id (zenodo_metadata c))) ->
  emits_only P
    (for_each (files_to_upload a) (fun file =>
       let filename := os_path_abspath w file in
       let filebase := PyStr.basename filename in
       if negb (os_path_isfile w filename) then raise (FileNotFoundError filename)
       else
         upload_to_zenodo w deposition_id file bucket_url file_url filebase
           (env_name c) ;;
         add_meta_data w deposition_id (zenodo_metadata c))).
Proof.
  intros Hupload Heffect Hmeta.
  apply emits_only_for_each_In. intros file Hin. cbv zeta.
  destruct (os_path_isfile w (os_path_abspath w file)) eqn:Hfile; cbn [negb].
  - apply emits_only_bind; [| intros _].
    + unfold upload_to_zenodo.
      repeat (emits_step; auto; try (apply Heffect; [reflexivity | exact I])).
    + apply add_meta_data_emits; [exact Hmeta |].
      apply Heffect; [reflexivity | exact I].
  - apply emits_only_raise.
Qed.

Lemma versioning_loop_emits (P : event -> Prop) a c :
  (forall deposition_id file bucket_url file_url,
      In file (files_to_upload a) ->
      os_path_isfile w (os_path_abspath w file) = true ->
      P (Call (upload_to_zenodo_call deposition_id file bucket_url file_url
                 (PyStr.basename (os_path_abspath w file)) (env_name c)))) ->
  (forall e, match e with Call (upload_to_zenodo_call _ _ _ _ _ _) => False
                     | Call (publish_file_call _) | Http (POST_publish _) => False
                     | _ => True end -> P e) ->
  forall h, emits_only P (for_each_with (files_to_upload a) h (new_version_pass w c)).
Proof.
  intros Hupload Hother.
  apply emits_only_for_each_with_In. intros [[deposition_id bucket_url] file_url] file Hin.
  unfold new_version_pass.
  destruct (os_path_isfile w (os_path_abspath w file)) eqn:Hfile; cbn [negb].
  - apply emits_only_bind; [now apply create_new_version_emits |].
    intros [[id2 bucket2] url2].
    apply emits_only_bind; [| intros _; apply emits_only_ret].
    unfold upload_to_zenodo.
    repeat (emits_step; auto; try (apply Hother; exact I)).
  - apply emits_only_raise.
Qed.

End Stages.

(** ** The log of a branch, whatever its outcome *)
Section BranchLog.
Variable w : World.

Lemma publication_tail a deposition_id t t' r :
  (if publish a then publish_file w deposition_id else ret tt) t = (t', r) ->
  exists tail, t' = t ++ tail /\ publication a tail.
Proof.
  destruct (publish a) eqn:Hpublish; intros E.
  - pose proof (publish_file_trace w deposition_id t) as Ht.
    rewrite E in Ht. cbn [fst] in Ht. subst t'.
    eexists. split; [reflexivity |]. right. eauto.
  - inversion E; subst. exists []. rewrite app_nil_r. split; [reflexivity | now left].
Qed.

Lemma creation_branch_log a c t t' r :
  upload_to_new_deposition w a c t = (t', r) ->
  exists body tail,
    t' = t ++ body ++ tail
    /\ Forall (before_publication w a c) body
    /\ publication a tail.
Proof.
  unfold upload_to_new_deposition. intros E.
  assert (Hcreate : emits_only (before_publication w a c) (create_new_deposition w)).
  { apply create_new_deposition_emits.
    intros [[] | | |[]]; simpl; intros H; try contradiction; now split. }
  apply bind_inv in E as [(t1 & [[deposition_id bucket_url] file_url] & E1 & E2)
                          | (e & E1 & ->)].
  - apply Hcreate in E1 as (n1 & -> & H1).
    assert (Hloop : emits_only (before_publication w a c)
              (for_each (files_to_upload a) (fun file =>
                 let filename := os_path_abspath w file in
                 let filebase := PyStr.basename filename in
                 if negb (os_path_isfile w filename)
                 then raise (FileNotFoundError filename)
                 else
                   upload_to_zenodo w deposition_id file bucket_url file_url filebase
                     (env_name c) ;;
                   add_meta_data w deposition_id (zenodo_metadata c)))).
    { apply creation_loop_emits.
      - intros file Hin Hfile. split; [| exact I]. now repeat split.
      - intros [| | |] He Hp; try discriminate; now split.
      - now split. }
    apply bind_inv in E2 as [(t2 & [] & E2 & E3) | (e & E2 & ->)].
    + apply Hloop in E2 as (n2 & -> & H2).
      apply publication_tail in E3 as (tail & -> & Htail).
      exists (n1 ++ n2), tail. rewrite <- !app_assoc.
      split; [reflexivity |]. split; [now apply Forall_app | exact Htail].
    + apply Hloop in E2 as (n2 & -> & H2).
      exists (n1 ++ n2), []. rewrite <- !app_assoc, app_nil_r.
      split; [reflexivity |]. split; [now apply Forall_app | now left].
  - apply Hcreate in E1 as (n1 & -> & H1).
    exists n1, []. rewrite app_nil_r. split; [reflexivity |]. split; [exact H1 | now left].
Qed.

Lemma versioning_branch_log a c h t t' r :
  upload_new_versions w a c h t = (t', r) ->
  exists body tail,
    t' = t ++ body ++ tail
    /\ Forall (before_publication w a c) body
    /\ publication a tail.
Proof.
  unfold upload_new_versions. intros E.
  assert (Hloop : forall h0, emits_only (before_publication w a c)
            (for_each_with (files_to_upload a) h0 (new_version_pass w c))).
  { apply versioning_loop_emits.
    - intros deposition_id file bucket_url file_url Hin Hfile.
      split; [| exact I]. now repeat split.
    - intros [[] | | |[]]; simpl; intros H; try contradiction; now split. }
  apply bind_inv in E as [(t1 & [[deposition_id bucket_url] file_url] & E1 & E2)
                          | (e & E1 & ->)].
  - apply Hloop in E1 as (n1 & -> & H1).
    apply publication_tail in E2 as (tail & -> & Htail).
    exists n1, tail. rewrite <- app_assoc. auto.
  - apply Hloop in E1 as (n1 & -> & H1).
    exists n1, []. rewrite app_nil_r. split; [reflexivity |]. split; [exact H1 | now left].
Qed.

(** The log of any run: the search, what the branch did, and at the very
    end the publication if there was one. *)
Lemma main_log a tr r :
  main w a [] = (tr, r) ->
  exists body tail,
    tr = body ++ tail
    /\ Forall (fun e => not_publish e
                        /\ forall c, ready w a c -> upload_call_checked w a c e) body
    /\ publication a tail.
Proof.
  intros E. apply main_stage in E.
  assert (Hsearch : forall c,
             Forall (fun e => not_publish e
                              /\ forall c, ready w a c -> upload_call_checked w a c e)
               (search_events w a c)).
  { intros c. unfold search_events. repeat constructor. }
  assert (Hbranch : forall c body,
             ready w a c -> Forall (before_publication w a c) body ->
             Forall (fun e => not_publish e
                              /\ forall c, ready w a c -> upload_call_checked w a c e)
               body).
  { intros c body Hready Hbody. eapply Forall_impl; [| exact Hbody].
    intros e [Hchecked Hnp]. split; [exact Hnp |].
    intros c' Hready'. now rewrite (ready_unique w a c' c Hready' Hready). }
  destruct E as [e Hnot [-> | ->] -> | c e Hready Hfound -> -> |
                 c found Hready Hfound Hid E | c h Hready Hfound Hid E].
  - exists [], []. repeat split; [constructor | now left].
  - exists [Open (os_path_abspath w (config_file a))], [].
    repeat split; [repeat constructor | now left].
  - exists (search_events w a c), []. rewrite app_nil_r.
    repeat split; [apply Hsearch | now left].
  - apply creation_branch_log in E as (body & tail & -> & Hbody & Htail).
    exists (search_events w a c ++ body), tail. rewrite <- app_assoc.
    split; [reflexivity |]. split; [| exact Htail].
    apply Forall_app. split; [apply Hsearch | now apply (Hbranch c)].
  - apply versioning_branch_log in E as (body & tail & -> & Hbody & Htail).
    exists (search_events w a c ++ body), tail. rewrite <- app_assoc.
    split; [reflexivity |]. split; [| exact Htail].
    apply Forall_app. split; [apply Hsearch | now apply (Hbranch c)].
Qed.

End BranchLog.

(** ** Properties of every run *)
Section EveryRun.
Variable w : World.

Lemma uploads_checked a c tr r :
  ready w a c -> main w a [] = (tr, r) -> Forall (upload_call_checked w a c) tr.
Proof.
  intros Hready E.
  apply main_log in E as (body & tail & -> & Hbody & Htail).
  apply Forall_app. split.
  - eapply Forall_impl; [| exact Hbody]. intros e [_ H]. now apply H.
  - destruct Htail as [-> | (_ & deposition_id & ->)]; repeat constructor.
Qed.

Lemma checked_uploads_exist a c tr :
  Forall (upload_call_checked w a c) tr ->
  Forall (fun file => os_path_isfile w (os_path_abspath w file) = true)
    (uploaded_files tr).
Proof.
  unfold uploaded_files.
  induction 1 as [| e tr He _ IH]; [constructor |].
  cbn [pick]. destruct e as [[] | | |]; try exact IH.
  constructor; [| exact IH]. now destruct He as (_ & H & _).
Qed.

End EveryRun.

(** X1: no request is sent before the configuration is complete, and the
    first request of a run is the search.  If the log of a run holds a
    request at all, both environment variables were set and the
    configuration file was loaded, and the log starts with the opening of
    that file and the search. *)
Theorem no_request_before_configuration w a tr r req :
  main w a [] = (tr, r) ->
  In (Http req) tr ->
  exists c rest, ready w a c /\ tr = search_events w a c ++ rest.
Proof.
  intros E Hin. pose proof (main_stage w a tr r E) as Hstage.
  destruct Hstage as [e Hnot [-> | ->] -> | c e Hready Hfound -> -> |
                      c found Hready Hfound Hid E' | c h Hready Hfound Hid E'].
  - now elim Hin.
  - destruct Hin as [Habs | []]. discriminate.
  - exists c, []. now rewrite app_nil_r.
  - apply creation_branch_log in E' as (body & tail & -> & _). eauto.
  - apply versioning_branch_log in E' as (body & tail & -> & _). eauto.
Qed.

Lemma no_request_before_configuration_witness :
  let w := Scenario.world (Scenario.plain Scenario.nothing_found 500) in
  let a := Scenario.run_args ["dist/report.txt"] false in
  exists c rest,
    ready w a c /\ fst (main w a []) = search_events w a c ++ rest.
Proof.
  intros w a.
  apply (no_request_before_configuration w a (fst (main w a [])) (snd (main w a []))
           POST_depositions).
  - reflexivity.
  - vm_compute. tauto.
Defined.

(** X2: a run that completes had both environment variables set and its
    configuration loaded, every file of the command line passed the
    [os.path.isfile] test, and [upload_to_zenodo] was called for each file
    once, in the order of the command line. *)
Theorem completed_run_uploads_every_file w a tr :
  main w a [] = (tr, Return tt) ->
  (exists c, ready w a c)
  /\ uploaded_files tr = files_to_upload a
  /\ Forall (fun file => os_path_isfile w (os_path_abspath w file) = true)
       (files_to_upload a).
Proof.
  intros E. pose proof (main_stage w a tr _ E) as Hstage.
  assert (H : exists c, ready w a c /\ uploaded_files tr = files_to_upload a).
  { destruct Hstage as [e _ _ Habs | c e _ _ _ Habs |
                        c found Hready Hfound Hid _ | c h Hready Hfound Hid _];
      try discriminate.
    - destruct (creation_run_shape w a c found tr Hready Hfound Hid E)
        as (h & new & Hpasses & ->).
      destruct (creation_projections w _ _ _ _ _ Hpasses) as (Hfiles & _).
      exists c. split; [exact Hready |].
      unfold uploaded_files in *. rewrite !pick_app, Hfiles.
      unfold search_events. cbn [pick app].
      destruct (publish a); cbn [pick]; now rewrite app_nil_r.
    - destruct (versioning_run_shape w a c h tr Hready Hfound Hid E)
        as (new & h' & Hpasses & ->).
      destruct (passes_projections w _ _ _ _ _ Hpasses) as (_ & _ & _ & Hfiles & _).
      exists c. split; [exact Hready |].
      unfold uploaded_files in *. rewrite !pick_app, Hfiles.
      unfold search_events. cbn [pick app].
      destruct (publish a); cbn [pick]; now rewrite app_nil_r. }
  destruct H as (c & Hready & Hfiles).
  split; [eauto |]. split; [exact Hfiles |].
  rewrite <- Hfiles. apply (checked_uploads_exist w a c).
  now apply (uploads_checked w a c tr (Return tt)).
Qed.

Lemma completed_run_uploads_every_file_witness :
  let w := Scenario.world (Scenario.plain Scenario.found 200) in
  let a := Scenario.run_args ["dist/report.txt"; "notes.md"] false in
  (exists c, ready w a c)
  /\ uploaded_files (fst (main w a [])) = ["dist/report.txt"; "notes.md"]
  /\ Forall (fun file => os_path_isfile w (os_path_abspath w file) = true)
       ["dist/report.txt"; "notes.md"].
Proof.
  intros w a.
  apply (completed_run_uploads_every_file w a (fst (main w a []))).
  reflexivity.
Defined.

(** X3: in every run, finished or aborted, each call of [upload_to_zenodo]
    is for a file of the command line that passed the [os.path.isfile]
    test, is given the base name of the file's absolute path as the name to
    store it under, and the environment name of the configuration. *)
Theorem every_upload_call_is_checked
    w a c tr r deposition_id filename bucket_url file_url filebase env :
  ready w a c ->
  main w a [] = (tr, r) ->
  In (Call (upload_to_zenodo_call deposition_id filename bucket_url file_url
              filebase env)) tr ->
  In filename (files_to_upload a)
  /\ os_path_isfile w (os_path_abspath w filename) = true
  /\ filebase = PyStr.basename (os_path_abspath w filename)
  /\ env = env_name c.
Proof.
  intros Hready E Hin.
  pose proof (uploads_checked w a c tr r Hready E) as H.
  rewrite Forall_forall in H. exact (H _ Hin).
Qed.

Lemma every_upload_call_is_checked_witness :
  let w := Scenario.world (Scenario.plain Scenario.found 500) in
  let a := Scenario.run_args ["dist/report.txt"; "notes.md"] true in
  snd (main w a []) = Raise (HTTPError 500)
  /\ In "dist/report.txt" (files_to_upload a)
  /\ os_path_isfile w (os_path_abspath w "dist/report.txt") = true
  /\ "report.txt" = PyStr.basename (os_path_abspath w "dist/report.txt")
  /\ "env" = env_name Scenario.the_config.
Proof.
  intros w a. split; [reflexivity |].
  apply (every_upload_call_is_checked w a Scenario.the_config
           (fst (main w a [])) (snd (main w a []))
           112 "dist/report.txt" "https://z.org/api/files/b112"
           "https://z.org/record/112" "report.txt" "env").
  - repeat split.
  - reflexivity.
  - vm_compute. tauto.
Defined.

(** X4: the publication ends the run.  In every run, a call of
    [publish_file] happens only with [--publish], is followed by its
    request and by nothing else, and is preceded by no other publication:
    no upload, metadata update or new version ever follows a publication. *)
Theorem publication_ends_the_run w a tr r pre deposition_id post :
  main w a [] = (tr, r) ->
  tr = pre ++ Call (publish_file_call deposition_id) :: post ->
  publish a = true
  /\ post = [Http (POST_publish deposition_id)]
  /\ Forall not_publish pre.
Proof.
  intros E Hsplit.
  apply main_log in E as (body & tail & -> & Hbody & Htail).
  apply app_split in Hsplit as [(post1 & -> & ->) | (pre2 & -> & Htail')].
  - apply Forall_app in Hbody as [_ Hbody]. inversion Hbody as [| ? ? [Hnp _] _].
    now elim Hnp.
  - destruct Htail as [-> | (Hpublish & id & ->)].
    + now destruct pre2.
    + destruct pre2 as [| x [| y pre2]]; inversion Htail'; subst.
      * split; [exact Hpublish |]. split; [reflexivity |].
        rewrite app_nil_r. eapply Forall_impl; [| exact Hbody]. now intros e [H _].
      * now destruct pre2.
Qed.

Lemma publication_ends_the_run_witness :
  let w := Scenario.world (Scenario.plain Scenario.nothing_found 200) in
  let a := Scenario.run_args ["dist/report.txt"] true in
  exists pre,
    fst (main w a []) = pre ++ [Call (publish_file_call 20); Http (POST_publish 20)]
    /\ publish a = true
    /\ Forall not_publish pre.
Proof.
  intros w a.
  exists (removelast (removelast (fst (main w a [])))).
  split; [reflexivity |].
  destruct (publication_ends_the_run w a (fst (main w a [])) (snd (main w a []))
              (removelast (removelast (fst (main w a [])))) 20
              [Http (POST_publish 20)]) as (Hp & _ & Hpre).
  - reflexivity.
  - reflexivity.
  - split; [exact Hp | exact Hpre].
Defined.

Lemma creation_passes_create_nothing w env h m files new :
  creation_passes w env h m files new -> created_handles new = [].
Proof.
  induction 1 as [| file files0 effects rest Heff _ IH]; [reflexivity |].
  unfold created_handles in *. cbn [pick].
  rewrite !pick_app, (effects_not_picked _ effects), IH by auto.
  reflexivity.
Qed.

(** X5: a completed run of the creation branch creates one deposition and
    nothing else, uploads every file into that deposition, updates its
    metadata once after each file, and publishes that same deposition when
    asked to. *)
Theorem creation_run_uses_one_deposition w a c found tr :
  ready w a c ->
  resolved w a c = Return found ->
  not_deposition_id found = true ->
  main w a [] = (tr, Return tt) ->
  exists h,
    created_handles tr = [h]
    /\ new_deposition_calls tr = [tt]
    /\ new_version_calls tr = []
    /\ upload_targets tr = map (fun _ => h) (files_to_upload a)
    /\ metadata_calls tr = map (fun _ => handle_id h) (files_to_upload a)
    /\ publish_calls tr = (if publish a then [handle_id h] else []).
Proof.
  intros Hready Hfound Hid E.
  destruct (creation_run_shape w a c found tr Hready Hfound Hid E)
    as (h & new & Hpasses & ->).
  pose proof (creation_passes_create_nothing w _ _ _ _ _ Hpasses) as Hcreated.
  destruct (creation_projections w _ _ _ _ _ Hpasses)
    as (_ & Htargets & Hmeta & Hpublish & Hversions & Hnew).
  exists h.
  unfold created_handles, new_deposition_calls, new_version_calls, upload_targets,
    metadata_calls, publish_calls in *.
  rewrite !pick_app, Hcreated, Htargets, Hmeta, Hpublish, Hversions, Hnew.
  unfold search_events. cbn [pick app].
  destruct (publish a); cbn [pick]; rewrite ?app_nil_r; repeat split.
Qed.

Lemma creation_run_uses_one_deposition_witness :
  let w := Scenario.world (Scenario.plain Scenario.nothing_found 200) in
  let a := Scenario.run_args ["dist/report.txt"; "notes.md"] true in
  let tr := fst (main w a []) in
  exists h,
    created_handles tr = [h]
    /\ new_deposition_calls tr = [tt]
    /\ new_version_calls tr = []
    /\ upload_targets tr = [h; h]
    /\ metadata_calls tr = [handle_id h; handle_id h]
    /\ publish_calls tr = [handle_id h].
Proof.
  intros w a tr.
  apply (creation_run_uses_one_deposition w a Scenario.the_config None tr).
  - repeat split.
  - reflexivity.
  - reflexivity.
  - reflexivity.
Defined.

(** X6: an archive whose checksum is not among the stored ones is uploaded:
    after the deposition is fetched and the checksum file read, the file is
    opened and PUT, and the outcome is that of the PUT. *)
Theorem archive_with_new_checksum_is_uploaded
    w deposition_id filename bucket_url file_url filebase env t status_code d content
    data :
  PyStr.endswith filename ".tar.gz" = true ->
  respond w
    (t ++ [Call (upload_to_zenodo_call deposition_id filename bucket_url file_url
                   filebase env)])
    (GET_deposition deposition_id)
  = Http_response status_code (Some (Json_object d)) ->
  is_http_error status_code = false ->
  read_file w (md5sum_file filename env) = Some content ->
  ~ In (current_file_checksum content) (map file_checksum (dep_files d)) ->
  read_file w filename = Some data ->
  upload_to_zenodo w deposition_id filename bucket_url file_url filebase env t
  = (t ++ [Call (upload_to_zenodo_call deposition_id filename bucket_url file_url
                   filebase env);
           Http (GET_deposition deposition_id);
           Open (md5sum_file filename env);
           Open filename;
           Http (PUT_file bucket_url filebase data)],
     match respond w
             (t ++ [Call (upload_to_zenodo_call deposition_id filename bucket_url
                            file_url filebase env);
                    Http (GET_deposition deposition_id);
                    Open (md5sum_file filename env);
                    Open filename])
             (PUT_file bucket_url filebase data) with
     | Transport_error => Raise ConnectionError
     | Http_response status _ =>
         if is_http_error status then Raise (HTTPError status) else Return tt
     end).
Proof.
  intros Harchive Hget Hstatus Hread Hnew Hdata.
  assert (Hnot : existsb (String.eqb (current_file_checksum content))
                   (map file_checksum (dep_files d)) = false).
  { destruct (existsb _ _) eqn:E; [| reflexivity].
    apply existsb_eqb_In in E. contradiction. }
  unfold upload_to_zenodo, bind, emit, requests, raise_for_status, open_read.
  rewrite Harchive, Hget, Hstatus. simpl. rewrite Hread, Hnot. simpl.
  rewrite Hdata. rewrite <- !app_assoc. simpl.
  destruct (respond w _ (PUT_file bucket_url filebase data)) as [| status b];
    [reflexivity |].
  now destruct (is_http_error status).
Qed.

Lemma archive_with_new_checksum_is_uploaded_witness :
  let w := Scenario.world (Scenario.archive "ffff") in
  upload_to_zenodo w 20 "dist/env.tar.gz" "https://z.org/api/files/b20"
    "https://z.org/record/20" "env.tar.gz" "env" []
  = ([Call (upload_to_zenodo_call 20 "dist/env.tar.gz" "https://z.org/api/files/b20"
              "https://z.org/record/20" "env.tar.gz" "env");
      Http (GET_deposition 20);
      Open "dist/env-md5sum.txt";
      Open "dist/env.tar.gz";
      Http (PUT_file "https://z.org/api/files/b20" "env.tar.gz" "bytes")],
     Return tt).
Proof.
  intros w.
  apply (archive_with_new_checksum_is_uploaded w 20 "dist/env.tar.gz"
           "https://z.org/api/files/b20" "https://z.org/record/20" "env.tar.gz" "env"
           [] 200 (Scenario.blank (Scenario.archive "ffff")) Scenario.checksum_line
           "bytes").
  - reflexivity.
  - reflexivity.
  - reflexivity.
  - reflexivity.
  - vm_compute. intros [H | []]. discriminate.
  - reflexivity.
Defined.

(** X7: an archive is never PUT unchecked.  If a call of [upload_to_zenodo]
    for a [*.tar.gz] file sends a PUT, then the deposition was fetched
    without an error status, the checksum file was read, the checksum read
    from it is not among the stored ones, and what is PUT is the content of
    the file, to the bucket and under the name the call was given. *)
Theorem archive_put_only_after_checksum_check
    w deposition_id filename bucket_url file_url filebase env t t' r new
    bucket_url' filebase' data :
  PyStr.endswith filename ".tar.gz" = true ->
  upload_to_zenodo w deposition_id filename bucket_url file_url filebase env t
  = (t', r) ->
  t' = t ++ new ->
  In (Http (PUT_file bucket_url' filebase' data)) new ->
  exists status_code d content,
    respond w
      (t ++ [Call (upload_to_zenodo_call deposition_id filename bucket_url file_url
                     filebase env)])
      (GET_deposition deposition_id)
    = Http_response status_code (Some (Json_object d))
    /\ is_http_error status_code = false
    /\ read_file w (md5sum_file filename env) = Some content
    /\ ~ In (current_file_checksum content) (map file_checksum (dep_files d))
    /\ read_file w filename = Some data
    /\ bucket_url' = bucket_url
    /\ filebase' = filebase.
Proof.
  intros Harchive E -> Hin.
  unfold upload_to_zenodo, bind, emit, requests, raise_for_status, open_read in E.
  rewrite Harchive in E.
  assert (Hnone : forall sent,
             (forall b f x, ~ In (Http (PUT_file b f x)) sent) ->
             t ++ sent = t ++ new -> False).
  { intros sent Hsent Ht. apply app_inv_head in Ht. subst sent.
    exact (Hsent _ _ _ Hin). }
  destruct (respond w _ (GET_deposition deposition_id))
    as [| status_code [[records | d] |]] eqn:Hget; simpl in E;
    try destruct (is_http_error status_code) eqn:Hstatus; simpl in E;
    try (exfalso; inversion E as [[Ht Hr]]; rewrite <- ?app_assoc in Ht;
         refine (Hnone _ _ Ht); intros ? ? ? Hx; simpl in Hx;
         repeat (destruct Hx as [Hx | Hx]; try discriminate Hx); exact Hx).
  destruct (read_file w (md5sum_file filename env)) as [content |] eqn:Hread;
    simpl in E;
    try (exfalso; inversion E as [[Ht Hr]]; rewrite <- ?app_assoc in Ht;
         refine (Hnone _ _ Ht); intros ? ? ? Hx; simpl in Hx;
         repeat (destruct Hx as [Hx | Hx]; try discriminate Hx); exact Hx).
  destruct (existsb _ _) eqn:Hstored; simpl in E;
    try (exfalso; inversion E as [[Ht Hr]]; rewrite <- ?app_assoc in Ht;
         refine (Hnone _ _ Ht); intros ? ? ? Hx; simpl in Hx;
         repeat (destruct Hx as [Hx | Hx]; try discriminate Hx); exact Hx).
  destruct (read_file w filename) as [data0 |] eqn:Hdata; simpl in E;
    try (exfalso; inversion E as [[Ht Hr]]; rewrite <- ?app_assoc in Ht;
         refine (Hnone _ _ Ht); intros ? ? ? Hx; simpl in Hx;
         repeat (destruct Hx as [Hx | Hx]; try discriminate Hx); exact Hx).
  assert (Ht : t ++ new
               = t ++ [Call (upload_to_zenodo_call deposition_id filename bucket_url
                               file_url filebase env);
                       Http (GET_deposition deposition_id);
                       Open (md5sum_file filename env);
                       Open filename;
                       Http (PUT_file bucket_url filebase data0)]).
  { destruct (respond w _ (PUT_file _ _ _)) as [| status b]; simpl in E;
      try destruct (is_http_error status); simpl in E;
      inversion E as [[Ht Hr]]; now rewrite <- !app_assoc. }
  apply app_inv_head in Ht. subst new. simpl in Hin.
  repeat (destruct Hin as [Hin | Hin]; try discriminate Hin); [| now elim Hin].
  inversion Hin; subst.
  exists status_code, d, content. repeat split; auto.
  intros Habs. apply existsb_eqb_In in Habs. congruence.
Qed.

Lemma archive_put_only_after_checksum_check_witness :
  let k := Scenario.archive "ffff" in
  let w := Scenario.world k in
  exists status_code d content,
    respond w
      [Call (upload_to_zenodo_call 20 "dist/env.tar.gz" "https://z.org/api/files/b20"
               "https://z.org/record/20" "env.tar.gz" "env")]
      (GET_deposition 20)
    = Http_response status_code (Some (Json_object d))
    /\ is_http_error status_code = false
    /\ read_file w "dist/env-md5sum.txt" = Some content
    /\ ~ In (current_file_checksum content) (map file_checksum (dep_files d))
    /\ read_file w "dist/env.tar.gz" = Some "bytes"
    /\ "https://z.org/api/files/b20" = "https://z.org/api/files/b20"
    /\ "env.tar.gz" = "env.tar.gz".
Proof.
  intros k w.
  apply (archive_put_only_after_checksum_check w 20 "dist/env.tar.gz"
           "https://z.org/api/files/b20" "https://z.org/record/20" "env.tar.gz" "env"
           []
           (fst (upload_to_zenodo w 20 "dist/env.tar.gz" "https://z.org/api/files/b20"
                   "https://z.org/record/20" "env.tar.gz" "env" []))
           (snd (upload_to_zenodo w 20 "dist/env.tar.gz" "https://z.org/api/files/b20"
                   "https://z.org/record/20" "env.tar.gz" "env" []))
           (fst (upload_to_zenodo w 20 "dist/env.tar.gz" "https://z.org/api/files/b20"
                   "https://z.org/record/20" "env.tar.gz" "env" []))
           "https://z.org/api/files/b20" "env.tar.gz" "bytes").
  - reflexivity.
  - reflexivity.
  - reflexivity.
  - vm_compute. tauto.
Defined.

(** X8: an archive cannot be uploaded without its checksum file.  When the
    file [<dirname>/<env_name>-md5sum.txt] cannot be read, the call raises
    the error of opening it, after fetching the deposition and without any
    PUT. *)
Theorem archive_without_checksum_file_fails
    w deposition_id filename bucket_url file_url filebase env t status_code d :
  PyStr.endswith filename ".tar.gz" = true ->
  respond w
    (t ++ [Call (upload_to_zenodo_call deposition_id filename bucket_url file_url
                   filebase env)])
    (GET_deposition deposition_id)
  = Http_response status_code (Some (Json_object d)) ->
  is_http_error status_code = false ->
  read_file w (md5sum_file filename env) = None ->
  upload_to_zenodo w deposition_id filename bucket_url file_url filebase env t
  = (t ++ [Call (upload_to_zenodo_call deposition_id filename bucket_url file_url
                   filebase env);
           Http (GET_deposition deposition_id);
           Open (md5sum_file filename env)],
     Raise (OSError (md5sum_file filename env))).
Proof.
  intros Harchive Hget Hstatus Hread.
  unfold upload_to_zenodo, bind, emit, requests, raise_for_status, open_read.
  rewrite Harchive, Hget, Hstatus. simpl. rewrite Hread.
  now rewrite <- !app_assoc.
Qed.

Lemma archive_without_checksum_file_fails_witness :
  let w := Faults.unreadable ["dist/env-md5sum.txt"]
             (Scenario.world (Scenario.archive "0cc1")) in
  upload_to_zenodo w 20 "dist/env.tar.gz" "https://z.org/api/files/b20"
    "https://z.org/record/20" "env.tar.gz" "env" []
  = ([Call (upload_to_zenodo_call 20 "dist/env.tar.gz" "https://z.org/api/files/b20"
              "https://z.org/record/20" "env.tar.gz" "env");
      Http (GET_deposition 20);
      Open "dist/env-md5sum.txt"],
     Raise (OSError "dist/env-md5sum.txt")).
Proof.
  intros w.
  apply (archive_without_checksum_file_fails w 20 "dist/env.tar.gz"
           "https://z.org/api/files/b20" "https://z.org/record/20" "env.tar.gz" "env"
           [] 200 (Scenario.blank (Scenario.archive "0cc1"))).
  - reflexivity.
  - reflexivity.
  - reflexivity.
  - reflexivity.
Defined.

(** ** More on the Resolver *)



(** X10: a deposition the search returns is one of the records of a 200
    answer and passes the filter: its title is the title searched for or
    its owner the owner given; the triple returned is its id, its bucket
    link and its html link with [deposit] replaced by [record]. *)
Theorem resolver_result_passes_filter w title owner t t' h :
  search_for_deposition w title owner t = (t', Return (Some h)) ->
  exists records d,
    respond w (t ++ [Call (search_for_deposition_call title owner)])
      (GET_search (search_query title owner))
    = Http_response 200 (Some (Json_list records))
    /\ In d records
    /\ (dep_title d = title \/ dep_owner d = of_optional owner)
    /\ h = (dep_id d, dep_bucket d, PyStr.replace "deposit" "record" (dep_html d)).
Proof.
  intros E.
  destruct (respond w (t ++ [Call (search_for_deposition_call title owner)])
              (GET_search (search_query title owner)))
    as [| status_code [[records | d] |]] eqn:Hresp.
  - rewrite search_None in E by (rewrite Hresp; constructor). discriminate.
  - destruct (Z.eq_dec status_code 200) as [-> | Hne].
    + destruct (filter_depositions title owner records) as [| x l] eqn:Hf.
      * rewrite search_None in E by (rewrite Hresp; now constructor). discriminate.
      * destruct (search_Some w title owner t records Hresp) as (best & Hbest & E').
        { rewrite Hf. discriminate. }
        rewrite E' in E. inversion E; subst.
        apply latest_first_In in Hbest. unfold filter_depositions in Hbest.
        apply filter_In in Hbest as [Hin Hm]. apply matches_iff in Hm.
        exists records, best. auto.
    + rewrite search_None in E by (rewrite Hresp; now constructor). discriminate.
  - destruct (Z.eq_dec status_code 200) as [-> | Hne].
    + unfold search_for_deposition, bind, emit, try_except, requests in E.
      rewrite Hresp in E. simpl in E. discriminate.
    + rewrite search_None in E by (rewrite Hresp; now constructor). discriminate.
  - destruct (Z.eq_dec status_code 200) as [-> | Hne].
    + unfold search_for_deposition, bind, emit, try_except, requests in E.
      rewrite Hresp in E. simpl in E. discriminate.
    + rewrite search_None in E by (rewrite Hresp; now constructor). discriminate.
Qed.

Lemma resolver_result_passes_filter_witness :
  let w := Scenario.world (Scenario.plain Scenario.found 200) in
  exists records d,
    respond w [Call (search_for_deposition_call "env" (Some "42"))]
      (GET_search (search_query "env" (Some "42")))
    = Http_response 200 (Some (Json_list records))
    /\ In d records
    /\ (dep_title d = "env" \/ dep_owner d = of_optional (Some "42"))
    /\ (12, "https://z.org/api/files/b12", "https://z.org/record/12")
       = (dep_id d, dep_bucket d, PyStr.replace "deposit" "record" (dep_html d)).
Proof.
  intros w.
  apply (resolver_result_passes_filter w "env" (Some "42") []
           (fst (search_for_deposition w "env" (Some "42") []))).
  reflexivity.
Defined.

(** ** Paths and checksums *)
Section Paths.

Lemma contains_char_app c s1 s2 :
  PyStr.contains_char c (s1 ++ s2)%string
  = PyStr.contains_char c s1 || PyStr.contains_char c s2.
Proof.
  induction s1 as [| x s1 IH]; [reflexivity |].
  simpl. now rewrite IH, orb_assoc.
Qed.

Lemma after_last_app sep label x :
  PyStr.contains_char sep x = false ->
  after_last sep (label ++ String sep x)%string = x.
Proof.
  intros Hx. induction label as [| c label IH]; simpl.
  - now rewrite Hx, Ascii.eqb_refl.
  - rewrite contains_char_app. simpl. rewrite Ascii.eqb_refl, orb_true_r.
    exact IH.
Qed.

Lemma after_last_clean sep s : PyStr.contains_char sep (after_last sep s) = false.
Proof.
  induction s as [| c s IH]; [reflexivity |]. simpl.
  destruct (PyStr.contains_char sep s) eqn:Hs; [exact IH |].
  destruct (Ascii.eqb c sep) eqn:Hc; [exact Hs |].
  simpl. now rewrite Hc, Hs.
Qed.

Lemma head_part_none p : PyStr.contains_char "/" p = false -> PyStr.head_part p = EmptyString.
Proof.
  induction p as [| c p IH]; [reflexivity |]. simpl.
  intros H. apply orb_false_iff in H as [Hc Hp]. now rewrite (IH Hp), Hc.
Qed.

Lemma head_part_app dir name :
  PyStr.contains_char "/" name = false ->
  PyStr.head_part (dir ++ String "/" name)%string = (dir ++ "/")%string.
Proof.
  intros Hname. induction dir as [| c dir IH]; simpl.
  - now rewrite (head_part_none name Hname).
  - rewrite IH. now destruct dir.
Qed.

Lemma all_slashes_rstrip s : PyStr.all_slashes s = true -> PyStr.rstrip_slash s = EmptyString.
Proof.
  induction s as [| c s IH]; [reflexivity |]. simpl.
  intros H. apply andb_true_iff in H as [Hc Hs]. now rewrite (IH Hs), Hc.
Qed.

Lemma rstrip_slash_app s : PyStr.rstrip_slash (s ++ "/")%string = PyStr.rstrip_slash s.
Proof.
  induction s as [| c s IH]; [reflexivity |]. simpl. now rewrite IH.
Qed.

Lemma all_slashes_app s1 s2 :
  PyStr.all_slashes (s1 ++ s2)%string = PyStr.all_slashes s1 && PyStr.all_slashes s2.
Proof.
  induction s1 as [| c s1 IH]; [reflexivity |]. simpl. now rewrite IH, andb_assoc.
Qed.

End Paths.

(** X11: the checksum read from a checksum file of the form
    [<label>=<text>] is the text with the white space around it stripped,
    whatever the label, which may itself contain [=]; from a file without
    any [=] it is the whole stripped content; and it never contains [=]. *)
Theorem sidecar_checksum_ignores_label :
  (forall label text,
      PyStr.contains_char "=" text = false ->
      current_file_checksum (label ++ String "=" text)%string = PyStr.strip text)
  /\ (forall content,
        PyStr.contains_char "=" content = false ->
        current_file_checksum content = PyStr.strip content)
  /\ (forall content,
        current_file_checksum content = PyStr.strip (after_last "=" content)
        /\ PyStr.contains_char "=" (after_last "=" content) = false).
Proof.
  unfold current_file_checksum. repeat split.
  - intros label text H. now rewrite last_split_after_last, after_last_app.
  - intros content H. now rewrite last_split_after_last, after_last_none.
  - now rewrite last_split_after_last.
  - apply after_last_clean.
Qed.

Lemma sidecar_checksum_ignores_label_witness :
  current_file_checksum ("MD5(a=b.tar.gz)" ++ String "=" (" 0cc1" ++ Scenario.newline))%string
  = "0cc1"
  /\ current_file_checksum ("  0cc1" ++ Scenario.newline)%string = "0cc1".
Proof.
  destruct sidecar_checksum_ignores_label as (Hlabel & Hwhole & _).
  split.
  - rewrite (Hlabel "MD5(a=b.tar.gz)" (" 0cc1" ++ Scenario.newline)%string).
    + reflexivity.
    + reflexivity.
  - rewrite (Hwhole ("  0cc1" ++ Scenario.newline)%string).
    + reflexivity.
    + reflexivity.
Defined.

(** X12: where the checksum file is looked for.  For a file given as
    [<dir>/<name>], with [dir] not empty and without a trailing slash, it
    is [<dir>/<env_name>-md5sum.txt], beside the file.  For a file given by
    its bare name it is [/<env_name>-md5sum.txt], in the root directory and
    not in the current one, because [os.path.dirname] of a bare name is
    empty. *)
Theorem md5sum_file_location :
  (forall dir name env,
      dir <> EmptyString ->
      PyStr.rstrip_slash dir = dir ->
      PyStr.contains_char "/" name = false ->
      md5sum_file (dir ++ String "/" name) env = (dir ++ "/" ++ env ++ "-md5sum.txt")%string)
  /\ (forall name env,
        PyStr.contains_char "/" name = false ->
        md5sum_file name env = ("/" ++ env ++ "-md5sum.txt")%string).
Proof.
  split.
  - intros dir name env Hdir Hstrip Hname.
    unfold md5sum_file, PyStr.dirname. rewrite (head_part_app dir name Hname).
    rewrite all_slashes_app.
    destruct (PyStr.all_slashes dir) eqn:Hall.
    + apply all_slashes_rstrip in Hall. congruence.
    + cbn [andb]. now rewrite rstrip_slash_app, Hstrip.
  - intros name env Hname.
    unfold md5sum_file, PyStr.dirname. now rewrite (head_part_none name Hname).
Qed.

Lemma md5sum_file_location_witness :
  md5sum_file "dist/linux/env.tar.gz" "env" = "dist/linux/env-md5sum.txt"
  /\ md5sum_file "env.tar.gz" "env" = "/env-md5sum.txt".
Proof.
  destruct md5sum_file_location as [Hdir Hbare].
  split.
  - apply (Hdir "dist/linux" "env.tar.gz" "env").
    + discriminate.
    + reflexivity.
    + reflexivity.
  - apply (Hbare "env.tar.gz" "env"). reflexivity.
Defined.

(** X13: [create_new_version] fetches the draft named by the last path
    segment of the [latest_draft] link of the answer to its POST (a name
    without a slash), and returns the triple of the deposition that this
    second request returns: its id, its bucket link and its html link with
    [deposit] replaced by [record]. *)
Theorem new_version_returns_refetched_draft
    w deposition_id t status_code d status_code' d' :
  let name := after_last "/" (dep_latest_draft d) in
  respond w (t ++ [Call (create_new_version_call deposition_id)])
    (POST_newversion deposition_id)
  = Http_response status_code (Some (Json_object d)) ->
  is_http_error status_code = false ->
  respond w
    (t ++ [Call (create_new_version_call deposition_id);
           Http (POST_newversion deposition_id)])
    (GET_draft name)
  = Http_response status_code' (Some (Json_object d')) ->
  is_http_error status_code' = false ->
  PyStr.contains_char "/" name = false
  /\ create_new_version w deposition_id t
     = (t ++ [Call (create_new_version_call deposition_id);
              Http (POST_newversion deposition_id);
              Http (GET_draft name);
              Created (dep_id d', dep_bucket d',
                       PyStr.replace "deposit" "record" (dep_html d'))],
        Return (dep_id d', dep_bucket d',
                PyStr.replace "deposit" "record" (dep_html d'))).
Proof.
  intros name Hpost Hstatus Hget Hstatus'.
  split; [apply after_last_clean |].
  unfold create_new_version, created, bind, emit, requests, raise_for_status.
  rewrite Hpost, Hstatus. cbn [ret response_json as_object].
  rewrite last_split_after_last. fold name.
  rewrite <- app_assoc. cbn [app]. rewrite Hget, Hstatus'.
  cbn [ret response_json as_object]. unfold handle_of.
  now rewrite <- !app_assoc.
Qed.

Lemma new_version_returns_refetched_draft_witness :
  let w := Scenario.world (Scenario.plain Scenario.found 200) in
  PyStr.contains_char "/" "112" = false
  /\ create_new_version w 12 []
     = ([Call (create_new_version_call 12);
         Http (POST_newversion 12);
         Http (GET_draft "112");
         Created (112, "https://z.org/api/files/b112", "https://z.org/record/112")],
        Return (112, "https://z.org/api/files/b112", "https://z.org/record/112")).
Proof.
  intros w.
  apply (new_version_returns_refetched_draft w 12 [] 201
           (Scenario.deposit 12 "env" "" (PyInt 42) "" ""
              "https://z.org/api/deposit/depositions/112" [])
           200 (Scenario.draft (Scenario.plain Scenario.found 200) "112")).
  - reflexivity.
  - reflexivity.
  - reflexivity.
  - reflexivity.
Defined.

(** ** Any failed request ends the run *)
Section Aborts.
Variable w : World.

Lemma aborts_pure {A} (m : M A) :
  (forall t, fst (m t) = t) -> aborts_on_failure w m.
Proof.
  intros H t t' r E. exists []. rewrite app_nil_r. split.
  - specialize (H t). rewrite E in H. now simpl in H.
  - intros pre req post e Hsplit. now destruct pre.
Qed.

Lemma aborts_single {A} (m : M A) ev :
  (forall req, ev <> Http req) ->
  (forall t, fst (m t) = t ++ [ev]) ->
  aborts_on_failure w m.
Proof.
  intros Hev H t t' r E. exists [ev]. split.
  - specialize (H t). rewrite E in H. now simpl in H.
  - intros pre req post e Hsplit.
    destruct pre as [| x pre]; inversion Hsplit; subst.
    + now elim (Hev req).
    + now destruct pre.
Qed.

Lemma aborts_bind {A B} (m : M A) (k : A -> M B) :
  aborts_on_failure w m -> (forall a, aborts_on_failure w (k a)) ->
  aborts_on_failure w (bind m k).
Proof.
  intros Hm Hk t t' r E.
  apply bind_inv in E as [(t1 & a & E1 & E2) | (e & E1 & ->)].
  - apply Hm in E1 as (n1 & -> & H1). apply Hk in E2 as (n2 & -> & H2).
    exists (n1 ++ n2). rewrite app_assoc. split; [reflexivity |].
    intros pre req post e Hsplit Hfail.
    apply app_split in Hsplit as [(post1 & -> & ->) | (pre2 & -> & ->)].
    + destruct (H1 pre req post1 e eq_refl Hfail) as [_ Habs]. discriminate.
    + rewrite app_assoc in Hfail. exact (H2 pre2 req post e eq_refl Hfail).
  - apply Hm in E1 as (n1 & -> & H1). exists n1. split; [reflexivity |].
    intros pre req post e' Hsplit Hfail.
    destruct (H1 pre req post e' Hsplit Hfail) as [-> Hr].
    inversion Hr. auto.
Qed.

Lemma aborts_request {A} req (k : Z * option json -> M A) :
  (forall status_code b, aborts_on_failure w (k (status_code, b))) ->
  (forall status_code b t e,
      failure req (Http_response status_code b) = Some e ->
      k (status_code, b) t = (t, Raise e)) ->
  aborts_on_failure w (bind (requests w req) k).
Proof.
  intros Hk Hfailure t t' r E. unfold bind, requests in E.
  destruct (respond w t req) as [| status_code b] eqn:Hrespond.
  - inversion E; subst. exists [Http req]. split; [reflexivity |].
    intros pre req' post e Hsplit Hfail.
    destruct pre as [| x pre]; inversion Hsplit; subst.
    + rewrite app_nil_r, Hrespond in Hfail. unfold failure in Hfail.
      destruct (fatal req'); inversion Hfail. auto.
    + now destruct pre.
  - pose proof E as E'. apply Hk in E as (n2 & -> & H2).
    exists (Http req :: n2). rewrite <- app_assoc. split; [reflexivity |].
    intros pre req' post e Hsplit Hfail.
    destruct pre as [| x pre]; inversion Hsplit; subst.
    + rewrite app_nil_r, Hrespond in Hfail.
      rewrite (Hfailure _ _ _ _ Hfail) in E'. inversion E' as [[Ht Hr]].
      split; [| reflexivity]. now apply app_same_nil in Ht.
    + apply (H2 pre req' post e eq_refl). now rewrite <- app_assoc.
Qed.

Lemma aborts_for_each {A} (l : list A) (f : A -> M unit) :
  (forall x, aborts_on_failure w (f x)) -> aborts_on_failure w (for_each l f).
Proof.
  intros H. induction l; simpl.
  - now apply aborts_pure.
  - apply aborts_bind; auto.
Qed.

Lemma aborts_for_each_with {S A} (l : list A) (f : S -> A -> M S) :
  (forall s x, aborts_on_failure w (f s x)) ->
  forall s, aborts_on_failure w (for_each_with l s f).
Proof.
  intros H. induction l; simpl; intros s.
  - now apply aborts_pure.
  - apply aborts_bind; auto.
Qed.

Lemma aborts_search title owner :
  aborts_on_failure w (search_for_deposition w title owner).
Proof.
  intros t t' r E.
  exists [Call (search_for_deposition_call title owner);
          Http (GET_search (search_query title owner))].
  split.
  - rewrite <- (search_trace w title owner t). now rewrite E.
  - intros pre req post e Hsplit Hfail.
    destruct pre as [| x [| y pre]]; inversion Hsplit; subst;
      try discriminate; now destruct pre.
Qed.

End Aborts.

(** The answer that raises makes the rest of the function raise at once. *)
Ltac raises_at_once :=
  let H := fresh in
  let E := fresh in
  let st := fresh "status" in
  let b := fresh "b" in
  intros st b ? ? H; unfold failure in H; cbn [fatal decoded] in H;
  cbn beta iota; unfold bind, raise_for_status;
  destruct (is_http_error st) eqn:E;
  [ inversion H; reflexivity
  | try discriminate H;
    destruct b as [[|] |]; inversion H; reflexivity ].

Ltac aborts_step :=
  match goal with
  | |- aborts_on_failure _ (bind (requests _ _) _) =>
      apply aborts_request; [intros | raises_at_once]
  | |- aborts_on_failure _ (bind _ _) => apply aborts_bind; [| intros]
  | |- aborts_on_failure _ (ret _) => now apply aborts_pure
  | |- aborts_on_failure _ (raise _) => now apply aborts_pure
  | |- aborts_on_failure _ (emit ?e) =>
      apply (aborts_single _ _ e); [discriminate | reflexivity]
  | |- aborts_on_failure _ (open_read ?w ?p) =>
      apply (aborts_single _ _ (Open p));
      [discriminate | intros; unfold open_read; now destruct (read_file w p)]
  | |- aborts_on_failure _ (search_for_deposition _ _ _) => apply aborts_search
  | |- aborts_on_failure _ (for_each _ _) => apply aborts_for_each; intros
  | |- aborts_on_failure _ (for_each_with _ _ _) => apply aborts_for_each_with; intros
  | |- aborts_on_failure _ (raise_for_status ?s) =>
      unfold raise_for_status; destruct (is_http_error s)
  | |- aborts_on_failure _ (response_json ?b) => destruct b; simpl
  | |- aborts_on_failure _ (as_object ?j) => destruct j; simpl
  | |- aborts_on_failure _ (created _) => unfold created
  | |- aborts_on_failure _ (let _ := _ in _) => cbv zeta
  | |- aborts_on_failure _ (if ?b then _ else _) => destruct b
  | |- aborts_on_failure _ (match ?x with _ => _ end) => destruct x
  end.

Lemma aborts_main w a : aborts_on_failure w (main w a).
Proof.
  unfold main, upload_to_new_deposition, upload_new_versions, new_version_pass,
    create_new_deposition, create_new_version, upload_to_zenodo, add_meta_data,
    publish_file.
  repeat aborts_step.
Qed.

(** X14: apart from the search, any request whose answer raises ends the
    run at that request, with that exception as the outcome: a
    [ConnectionError] when the service does not answer, an [HTTPError] for
    a status from 400 to 599, and for the four requests whose body is read
    (new version, draft, new deposition, deposition) a [JSONDecodeError]
    for a body that is not JSON and a [TypeError] for a list.  Nothing is
    retried and nothing follows. *)
Theorem failed_request_ends_the_run w a tr r pre req post e :
  main w a [] = (tr, r) ->
  tr = pre ++ Http req :: post ->
  failure req (respond w pre req) = Some e ->
  post = [] /\ r = Raise e.
Proof.
  intros E Hsplit Hfail.
  apply aborts_main in E as (new & -> & H).
  exact (H pre req post e Hsplit Hfail).
Qed.

Lemma failed_request_ends_the_run_witness :
  let w := Faults.answering
             (fun req => match req with
                         | GET_draft _ => Some (Http_response 200 None)
                         | _ => None
                         end)
             (Scenario.world (Scenario.plain Scenario.found 200)) in
  let a := Scenario.run_args ["dist/report.txt"; "notes.md"] true in
  main w a []
  = (search_events w a Scenario.the_config
     ++ [Call (create_new_version_call 12);
         Http (POST_newversion 12);
         Http (GET_draft "112")],
     Raise JSONDecodeError).
Proof.
  intros w a.
  destruct (failed_request_ends_the_run w a (fst (main w a [])) (snd (main w a []))
              (search_events w a Scenario.the_config
               ++ [Call (create_new_version_call 12); Http (POST_newversion 12)])
              (GET_draft "112") [] JSONDecodeError) as [_ Hr].
  - reflexivity.
  - reflexivity.
  - reflexivity.
  - rewrite (surjective_pairing (main w a [])). rewrite Hr. reflexivity.
Defined.

(** X15: a file that is missing is found out when its turn comes, not
    before.  When the first file of the command line is not a file, the
    existing-deposition branch raises [FileNotFoundError] right after the
    search, with no new version opened; the creation branch has by then
    already created the new deposition, and leaves it behind empty. *)
Theorem missing_first_file w a c file rest :
  ready w a c ->
  files_to_upload a = file :: rest ->
  os_path_isfile w (os_path_abspath w file) = false ->
  (forall h,
      resolved w a c = Return (Some h) ->
      not_deposition_id (Some h) = false ->
      main w a []
      = (search_events w a c, Raise (FileNotFoundError (os_path_abspath w file))))
  /\ (forall found status_code d,
        resolved w a c = Return found ->
        not_deposition_id found = true ->
        respond w (search_events w a c ++ [Call create_new_deposition_call])
          POST_depositions
        = Http_response status_code (Some (Json_object d)) ->
        is_http_error status_code = false ->
        main w a []
        = (search_events w a c
           ++ [Call create_new_deposition_call;
               Http POST_depositions;
               Created (handle_of d)],
           Raise (FileNotFoundError (os_path_abspath w file)))).
Proof.
  intros Hready Hfiles Hfile. split.
  - intros [[deposition_id bucket_url] file_url] Hfound Hid.
    rewrite (main_after_search w a c _ Hready Hfound), Hid.
    unfold upload_new_versions, bind. rewrite Hfiles.
    cbn [for_each_with]. unfold bind, new_version_pass. now rewrite Hfile.
  - intros found status_code d Hfound Hid Hpost Hstatus.
    rewrite (main_after_search w a c _ Hready Hfound).
    assert (E : upload_to_new_deposition w a c (search_events w a c)
                = (search_events w a c
                   ++ [Call create_new_deposition_call;
                       Http POST_depositions;
                       Created (handle_of d)],
                   Raise (FileNotFoundError (os_path_abspath w file)))).
    { unfold upload_to_new_deposition, create_new_deposition, created, bind, emit,
        requests, raise_for_status.
      rewrite Hpost, Hstatus. cbn [ret response_json as_object]. unfold handle_of.
      rewrite Hfiles. cbn [for_each]. unfold bind. rewrite Hfile. cbn [negb raise].
      now rewrite <- !app_assoc. }
    destruct found as [h |]; [now rewrite Hid |]. exact E.
Qed.

Lemma missing_first_file_witness :
  let a := Scenario.run_args ["dist/report.txt"; "notes.md"] true in
  let w := Faults.missing_files ["/work/dist/report.txt"]
             (Scenario.world (Scenario.plain Scenario.found 200)) in
  let w' := Faults.missing_files ["/work/dist/report.txt"]
              (Scenario.world (Scenario.plain Scenario.nothing_found 200)) in
  main w a []
  = (search_events w a Scenario.the_config,
     Raise (FileNotFoundError "/work/dist/report.txt"))
  /\ main w' a []
     = (search_events w' a Scenario.the_config
        ++ [Call create_new_deposition_call;
            Http POST_depositions;
            Created (20, "https://z.org/api/files/b20", "https://z.org/record/20")],
        Raise (FileNotFoundError "/work/dist/report.txt")).
Proof.
  intros a w w'. split.
  - destruct (missing_first_file w a Scenario.the_config "dist/report.txt" ["notes.md"])
      as [Hversion _].
    + repeat split.
    + reflexivity.
    + reflexivity.
    + apply (Hversion (handle_of Scenario.newer)); reflexivity.
  - destruct (missing_first_file w' a Scenario.the_config "dist/report.txt" ["notes.md"])
      as [_ Hcreation].
    + repeat split.
    + reflexivity.
    + reflexivity.
    + apply (Hcreation None 201
               (Scenario.blank (Scenario.plain Scenario.nothing_found 200)));
        reflexivity.
Defined.

(** X16: a deposition found with the identifier 0 counts as not found.
    [if not deposition_id] is true for it, so the run creates a new
    deposition and never opens a new version of the one found. *)
Theorem found_with_id_zero_is_not_found w a c bucket_url file_url :
  ready w a c ->
  resolved w a c = Return (Some (0, bucket_url, file_url)) ->
  exists rest r,
    main w a []
    = (search_events w a c ++ Call create_new_deposition_call :: rest, r)
    /\ Forall (fun e => is_new_version_call e = false) rest.
Proof.
  intros Hready Hfound.
  rewrite (main_after_search w a c _ Hready Hfound). cbn [not_deposition_id Z.eqb].
  destruct (upload_to_new_deposition w a c (search_events w a c)) as [t' r] eqn:E.
  apply creation_path in E as (rest & -> & Hrest). eauto.
Qed.

Lemma found_with_id_zero_is_not_found_witness :
  let zero := Scenario.deposit 0 "env" "2024-03-01" (PyInt 42)
                "https://z.org/api/files/b0" "https://z.org/deposit/0" "" [] in
  let w := Scenario.world
             (Scenario.plain (Http_response 200 (Some (Json_list [zero]))) 200) in
  let a := Scenario.run_args ["dist/report.txt"] false in
  exists rest r,
    main w a []
    = (search_events w a Scenario.the_config
       ++ Call create_new_deposition_call :: rest, r)
    /\ Forall (fun e => is_new_version_call e = false) rest.
Proof.
  intros zero w a.
  apply (found_with_id_zero_is_not_found w a Scenario.the_config
           "https://z.org/api/files/b0" "https://z.org/record/0").
  - repeat split.
  - reflexivity.
Defined.

(** X17: the configuration is checked in a fixed order and before anything
    else.  Without the access token the run exits at once, whatever else is
    wrong; with the token but without the owner identifier it exits
    likewise; with both but a configuration path that is not a file it
    raises [FileNotFoundError] for the absolute path; and when the file does
    not yield the metadata and the environment name it exits after opening
    it.  In none of these cases is a request sent. *)
Theorem configuration_errors_in_order w a :
  (truthy (ZENODO_ACCESS_TOKEN a) = false ->
   exists message, main w a [] = ([], Raise (SystemExit message)))
  /\ (truthy (ZENODO_ACCESS_TOKEN a) = true ->
      truthy (ZENODO_OWNER_ID a) = false ->
      exists message, main w a [] = ([], Raise (SystemExit message)))
  /\ (truthy (ZENODO_ACCESS_TOKEN a) = true ->
      truthy (ZENODO_OWNER_ID a) = true ->
      os_path_isfile w (os_path_abspath w (config_file a)) = false ->
      main w a []
      = ([], Raise (FileNotFoundError (os_path_abspath w (config_file a)))))
  /\ (truthy (ZENODO_ACCESS_TOKEN a) = true ->
      truthy (ZENODO_OWNER_ID a) = true ->
      os_path_isfile w (os_path_abspath w (config_file a)) = true ->
      load_config w (os_path_abspath w (config_file a)) = None ->
      exists message,
        main w a []
        = ([Open (os_path_abspath w (config_file a))], Raise (SystemExit message))).
Proof.
  unfold main. split; [| split; [| split]].
  - intros ->. eexists. reflexivity.
  - intros -> ->. eexists. reflexivity.
  - intros -> -> ->. reflexivity.
  - intros -> -> -> Hconfig. cbn [negb]. unfold bind at 1. cbn [emit].
    rewrite Hconfig. eexists. reflexivity.
Qed.

Lemma configuration_errors_in_order_witness :
  let w := Scenario.world (Scenario.plain Scenario.found 200) in
  let a := Scenario.run_args ["dist/report.txt"] true in
  let no_token :=
    {| files_to_upload := ["dist/report.txt"]; config_file := "config.yml";
       publish := true; ZENODO_ACCESS_TOKEN := Some ""; ZENODO_OWNER_ID := None |} in
  let no_owner :=
    {| files_to_upload := ["dist/report.txt"]; config_file := "config.yml";
       publish := true; ZENODO_ACCESS_TOKEN := Some "secret";
       ZENODO_OWNER_ID := None |} in
  (exists message, main w no_token [] = ([], Raise (SystemExit message)))
  /\ (exists message, main w no_owner [] = ([], Raise (SystemExit message)))
  /\ main (Faults.missing_files ["/work/config.yml"] w) a []
     = ([], Raise (FileNotFoundError "/work/config.yml"))
  /\ (exists message,
         main (Faults.no_config w) a []
         = ([Open "/work/config.yml"], Raise (SystemExit message))).
Proof.
  intros w a no_token no_owner. split; [| split; [| split]].
  - destruct (configuration_errors_in_order w no_token) as (H & _).
    apply H. reflexivity.
  - destruct (configuration_errors_in_order w no_owner) as (_ & H & _).
    apply H; reflexivity.
  - destruct (configuration_errors_in_order
                (Faults.missing_files ["/work/config.yml"] w) a) as (_ & _ & H & _).
    apply H; reflexivity.
  - destruct (configuration_errors_in_order (Faults.no_config w) a)
      as (_ & _ & _ & H).
    apply H; reflexivity.
Defined.

(** X18: whatever the file, a call of [upload_to_zenodo] sends at most one
    PUT, as its last effect, and what it sends is the content read from the
    file it was given, to the bucket and under the name it was given. *)
Theorem put_sends_the_file
    w deposition_id filename bucket_url file_url filebase env t t' r pre
    bucket_url' filebase' data post :
  upload_to_zenodo w deposition_id filename bucket_url file_url filebase env t
  = (t', r) ->
  t' = t ++ pre ++ Http (PUT_file bucket_url' filebase' data) :: post ->
  post = []
  /\ read_file w filename = Some data
  /\ bucket_url' = bucket_url
  /\ filebase' = filebase
  /\ Forall (fun e => forall b f x, e <> Http (PUT_file b f x)) pre.
Proof.
  intros E ->.
  assert (Hsent : forall sent,
             t ++ sent = t ++ pre ++ Http (PUT_file bucket_url' filebase' data) :: post ->
             In (Http (PUT_file bucket_url' filebase' data)) sent).
  { intros sent Ht. apply app_inv_head in Ht. subst sent. apply in_elt. }
  assert (Hput : forall before data0,
             Forall (fun e => forall b f x, e <> Http (PUT_file b f x)) before ->
             t ++ before ++ [Http (PUT_file bucket_url filebase data0)]
             = t ++ pre ++ Http (PUT_file bucket_url' filebase' data) :: post ->
             post = [] /\ data0 = data /\ bucket_url' = bucket_url
             /\ filebase' = filebase
             /\ Forall (fun e => forall b f x, e <> Http (PUT_file b f x)) pre).
  { intros before data0 Hbefore Ht. apply app_inv_head in Ht.
    apply app_split in Ht as [(post1 & -> & _) | (pre2 & -> & Hlast)].
    - apply Forall_app in Hbefore as [_ Hbefore].
      inversion Hbefore as [| ? ? Habs _]. now elim (Habs bucket_url' filebase' data).
    - destruct pre2 as [| x pre2]; inversion Hlast; subst.
      + rewrite app_nil_r. auto.
      + now destruct pre2. }
  unfold upload_to_zenodo, bind, emit, requests, raise_for_status, open_read in E.
  destruct (PyStr.endswith filename ".tar.gz").
  - destruct (respond w _ (GET_deposition deposition_id))
      as [| status_code [[records | d] |]]; simpl in E;
      try destruct (is_http_error status_code); simpl in E;
      try (exfalso; inversion E as [[Ht Hr]]; rewrite <- ?app_assoc in Ht;
           apply Hsent in Ht; simpl in Ht;
           repeat (destruct Ht as [Ht | Ht]; try discriminate Ht); exact Ht).
    destruct (read_file w (md5sum_file filename env)) as [content |]; simpl in E;
      try (exfalso; inversion E as [[Ht Hr]]; rewrite <- ?app_assoc in Ht;
           apply Hsent in Ht; simpl in Ht;
           repeat (destruct Ht as [Ht | Ht]; try discriminate Ht); exact Ht).
    destruct (existsb _ _); simpl in E;
      try (exfalso; inversion E as [[Ht Hr]]; rewrite <- ?app_assoc in Ht;
           apply Hsent in Ht; simpl in Ht;
           repeat (destruct Ht as [Ht | Ht]; try discriminate Ht); exact Ht).
    destruct (read_file w filename) as [data0 |] eqn:Hdata; simpl in E;
      try (exfalso; inversion E as [[Ht Hr]]; rewrite <- ?app_assoc in Ht;
           apply Hsent in Ht; simpl in Ht;
           repeat (destruct Ht as [Ht | Ht]; try discriminate Ht); exact Ht).
    assert (Ht : t ++ [Call (upload_to_zenodo_call deposition_id filename bucket_url
                               file_url filebase env);
                       Http (GET_deposition deposition_id);
                       Open (md5sum_file filename env);
                       Open filename]
                   ++ [Http (PUT_file bucket_url filebase data0)]
                 = t ++ pre ++ Http (PUT_file bucket_url' filebase' data) :: post).
    { destruct (respond w _ (PUT_file _ _ _)) as [| status b]; simpl in E;
        try destruct (is_http_error status); simpl in E;
        inversion E as [[Ht Hr]]; now rewrite <- !app_assoc. }
    apply Hput in Ht as (Hpost & -> & Hb & Hf & Hpre);
      [auto | repeat constructor; discriminate].
  - simpl in E.
    destruct (read_file w filename) as [data0 |] eqn:Hdata; simpl in E;
      try (exfalso; inversion E as [[Ht Hr]]; rewrite <- ?app_assoc in Ht;
           apply Hsent in Ht; simpl in Ht;
           repeat (destruct Ht as [Ht | Ht]; try discriminate Ht); exact Ht).
    assert (Ht : t ++ [Call (upload_to_zenodo_call deposition_id filename bucket_url
                               file_url filebase env);
                       Open filename]
                   ++ [Http (PUT_file bucket_url filebase data0)]
                 = t ++ pre ++ Http (PUT_file bucket_url' filebase' data) :: post).
    { destruct (respond w _ (PUT_file _ _ _)) as [| status b]; simpl in E;
        try destruct (is_http_error status); simpl in E;
        inversion E as [[Ht Hr]]; now rewrite <- !app_assoc. }
    apply Hput in Ht as (Hpost & -> & Hb & Hf & Hpre);
      [auto | repeat constructor; discriminate].
Qed.

Lemma put_sends_the_file_witness :
  let w := Scenario.world (Scenario.archive "ffff") in
  read_file w "dist/env.tar.gz" = Some "bytes"
  /\ Forall (fun e => forall b f x, e <> Http (PUT_file b f x))
       [Call (upload_to_zenodo_call 20 "dist/env.tar.gz" "https://z.org/api/files/b20"
                "https://z.org/record/20" "env.tar.gz" "env");
        Http (GET_deposition 20);
        Open "dist/env-md5sum.txt";
        Open "dist/env.tar.gz"].
Proof.
  intros w.
  destruct (put_sends_the_file w 20 "dist/env.tar.gz" "https://z.org/api/files/b20"
              "https://z.org/record/20" "env.tar.gz" "env" []
              (fst (upload_to_zenodo w 20 "dist/env.tar.gz"
                      "https://z.org/api/files/b20" "https://z.org/record/20"
                      "env.tar.gz" "env" []))
              (snd (upload_to_zenodo w 20 "dist/env.tar.gz"
                      "https://z.org/api/files/b20" "https://z.org/record/20"
                      "env.tar.gz" "env" []))
              [Call (upload_to_zenodo_call 20 "dist/env.tar.gz"
                       "https://z.org/api/files/b20" "https://z.org/record/20"
                       "env.tar.gz" "env");
               Http (GET_deposition 20);
               Open "dist/env-md5sum.txt";
               Open "dist/env.tar.gz"]
              "https://z.org/api/files/b20" "env.tar.gz" "bytes" [])
    as (_ & Hread & _ & _ & Hpre).
  - reflexivity.
  - reflexivity.
  - split; [exact Hread | exact Hpre].
Defined.
